(** * Session and transport layer of the ai-systems client

    A shallow embedding of
      - [src/frontend/lib/api.ts]      (both revisions kept in the file),
      - [src/context/AuthContext.tsx],
      - the guarded pages ([DashboardPage], [DeepDivePage], [ConsultPage],
        [AdminPage]),
    followed by the properties of the specification that concern them.

    Strings are sequences of bytes holding well-formed UTF-8 text, which
    is what the runtime puts on the wire for a request body. *)

From Stdlib Require Import ZArith String Ascii List Lia.
From stdpp Require Import base option strings gmap.

Open Scope string_scope.
Set Warnings "-register-all".

(** ** Runtime values and the coercions the code relies on *)

Module JS.

(** A number as the code meets it: a finite double out of [JSON.parse],
    which the code only prints, compares and tests for truth.  It is given
    by the text [String] prints for it, which names it uniquely and is
    what [JSON.stringify] writes too: ["7"], ["0.5"], ["1e+21"], and ["0"]
    for either zero. *)
Record number : Type := mkNumber { number_to_string : string }.

(** [a === b] on numbers. *)
Definition number_eqb (a b : number) : bool :=
  String.eqb (number_to_string a) (number_to_string b).

(** Values as [JSON.parse] produces them, with [undefined] for a missing
    property.  [VObj fields] lists the own properties of an object in
    enumeration order, each name once. *)
Inductive value : Type :=
| VUndefined
| VNull
| VBool (b : bool)
| VNum (n : number)
| VStr (s : string)
| VArr (items : list value)
| VObj (fields : list (string * value)).

(** [Boolean(v)], [!v], [v || w], [if (v)]. *)
Definition truthy (v : value) : bool :=
  match v with
  | VUndefined | VNull => false
  | VBool b => b
  | VNum n => negb (String.eqb (number_to_string n) "0")
  | VStr s => negb (String.eqb s "")
  | VArr _ | VObj _ => true
  end.

(** [v || w] *)
Definition or_else (v w : value) : value := if truthy v then v else w.

(** [String(v)], also what a template literal and [new Error(v)] apply. *)
Fixpoint to_string (v : value) : string :=
  match v with
  | VUndefined => "undefined"
  | VNull => "null"
  | VBool true => "true"
  | VBool false => "false"
  | VNum n => number_to_string n
  | VStr s => s
  | VArr items =>
      String.concat ","
        (map (fun x => match x with
                       | VUndefined | VNull => ""
                       | _ => to_string x
                       end) items)
  | VObj _ => "[object Object]"
  end.

(** What the runtime can throw at the code under study.  Only the errors
    the code builds itself carry a message the code chose. *)
Inductive exn : Type :=
| Error (message : string)   (* new Error(message) *)
| TypeError                  (* property read on null or undefined *)
| SyntaxError                (* body is not JSON *)
| NetworkError.              (* fetch rejected *)

Inductive completion (A : Type) : Type :=
| Normal (a : A)
| Throw (e : exn).
Arguments Normal {A} a.
Arguments Throw {A} e.

(** [v.name] and [const { name } = v] for a name that is no built-in
    property ([detail], [access_token]). *)
Definition get_prop (v : value) (name : string) : completion value :=
  match v with
  | VUndefined | VNull => Throw TypeError
  | VObj fields =>
      Normal (match find (fun kv => String.eqb (fst kv) name) fields with
              | Some kv => snd kv
              | None => VUndefined
              end)
  | _ => Normal VUndefined
  end.

(** *** Serializers *)

Definition dquote : string := String "034"%char EmptyString.
Definition backslash : string := String "092"%char EmptyString.

Definition hex_digit (upper : bool) (n : N) : ascii :=
  if (n <? 10)%N then ascii_of_N (48 + n)
  else ascii_of_N ((if upper then 55 else 87) + n).

Definition hex_byte (upper : bool) (c : ascii) : string :=
  let n := N_of_ascii c in
  String (hex_digit upper (n / 16)) (String (hex_digit upper (n mod 16)) "").

(** QuoteJSONString on one byte of UTF-8 text. *)
Definition json_escape_char (c : ascii) : string :=
  let n := N_of_ascii c in
  if (n =? 34)%N then backslash +:+ dquote
  else if (n =? 92)%N then backslash +:+ backslash
  else if (n =? 8)%N then backslash +:+ "b"
  else if (n =? 12)%N then backslash +:+ "f"
  else if (n =? 10)%N then backslash +:+ "n"
  else if (n =? 13)%N then backslash +:+ "r"
  else if (n =? 9)%N then backslash +:+ "t"
  else if (n <? 32)%N then backslash +:+ "u00" +:+ hex_byte false c
  else String c "".

Fixpoint json_escape (s : string) : string :=
  match s with
  | EmptyString => ""
  | String c rest => json_escape_char c +:+ json_escape rest
  end.

Definition json_quote (s : string) : string :=
  dquote +:+ json_escape s +:+ dquote.

(** [JSON.stringify(v)]; [None] is the [undefined] it returns for
    [undefined].  A property holding [undefined] is left out, an array
    item holding it is written [null]. *)
Fixpoint JSON_stringify (v : value) : option string :=
  match v with
  | VUndefined => None
  | VNull => Some "null"
  | VBool true => Some "true"
  | VBool false => Some "false"
  | VNum n => Some (number_to_string n)
  | VStr s => Some (json_quote s)
  | VArr items =>
      Some ("[" +:+
            String.concat "," (map (fun x => default "null" (JSON_stringify x)) items)
            +:+ "]")
  | VObj fields =>
      Some ("{" +:+
            String.concat ","
              (omap (fun kv => match JSON_stringify (snd kv) with
                               | Some s => Some (json_quote (fst kv) +:+ ":" +:+ s)
                               | None => None
                               end) fields)
            +:+ "}")
  end.

(** The application/x-www-form-urlencoded byte serializer of the URL
    standard: alphanumerics and [*-._] stay, a space becomes [+], every
    other byte is percent-encoded with upper-case digits. *)
Definition form_safe (c : ascii) : bool :=
  let n := N_of_ascii c in
  ((48 <=? n) && (n <=? 57) || (65 <=? n) && (n <=? 90)
   || (97 <=? n) && (n <=? 122)
   || (n =? 42) || (n =? 45) || (n =? 46) || (n =? 95))%N.

Definition form_encode_char (c : ascii) : string :=
  if form_safe c then String c ""
  else if (N_of_ascii c =? 32)%N then "+"
  else "%" +:+ hex_byte true c.

Fixpoint form_encode (s : string) : string :=
  match s with
  | EmptyString => ""
  | String c rest => form_encode_char c +:+ form_encode rest
  end.

(** [new URLSearchParams(record).toString()]: the own properties in
    enumeration order, each value through [String]. *)
Definition URLSearchParams_toString (fields : list (string * value)) : string :=
  String.concat "&"
    (map (fun kv => form_encode (fst kv) +:+ "=" +:+ form_encode (to_string (snd kv)))
         fields).

End JS.

(** ** The browser side: requests, responses, storage, navigation *)

Module Runtime.
Import JS.

(** The argument of [fetch]: the URL and the init object.  [headers] is
    the plain object the code fills in. *)
Record Request : Type := mkRequest {
  url : string;
  method : string;
  headers : gmap string string;
  body : option string;
}.

(** A response as the code can observe it: the status, the raw body
    ([res.text()]) and the body read as JSON ([res.json()], [None] when
    it is not JSON). *)
Record Response : Type := mkResponse {
  status : Z;
  text : string;
  json : option value;
}.

(** [res.ok] *)
Definition ok (r : Response) : bool :=
  ((200 <=? status r) && (status r <=? 299))%Z.

(** What the code does not own: the build-time environment and the
    remote end ([None]: the call is rejected before any response). *)
Record Env : Type := mkEnv {
  process_env : gmap string string;
  network : Request -> option Response;
}.

(** What the code changes: [localStorage], the [token] state cell of
    [AuthProvider], the destinations handed to [router.push] and the
    requests handed to [fetch], both latest first. *)
Record World : Type := mkWorld {
  localStorage : gmap string string;
  token : value;
  pushed : list string;
  fetched : list Request;
}.

(** Computations read the environment, thread the world and may throw.
    An [await] is a sequence point: a single task runs at a time. *)
Definition M (A : Type) : Type := Env -> World -> completion A * World.

Definition ret {A} (a : A) : M A := fun _ w => (Normal a, w).

Definition bind {A B} (m : M A) (k : A -> M B) : M B :=
  fun e w =>
    match m e w with
    | (Normal a, w') => k a e w'
    | (Throw x, w') => (Throw x, w')
    end.

Definition throw {A} (x : exn) : M A := fun _ w => (Throw x, w).

Definition lift {A} (c : completion A) : M A := fun _ w => (c, w).

Declare Scope js_scope.
Delimit Scope js_scope with js.
Notation "x <- m ;; k" := (bind m (fun x => k))
  (at level 100, m at next level, right associativity) : js_scope.
Notation "m ;; k" := (bind m (fun _ => k))
  (at level 100, right associativity) : js_scope.
Open Scope js_scope.

(** [process.env.NAME] *)
Definition getenv (name : string) : M value :=
  fun e w =>
    (Normal (match process_env e !! name with
             | Some s => VStr s
             | None => VUndefined
             end), w).

(** [localStorage.getItem(key)] *)
Definition getItem (key : string) : M value :=
  fun _ w =>
    (Normal (match localStorage w !! key with
             | Some s => VStr s
             | None => VNull
             end), w).

(** [localStorage.setItem(key, v)]: the value is stored as a string. *)
Definition setItem (key : string) (v : value) : M unit :=
  fun _ w =>
    (Normal tt,
     {| localStorage := <[key := to_string v]> (localStorage w);
        token := token w; pushed := pushed w; fetched := fetched w |}).

(** [localStorage.removeItem(key)] *)
Definition removeItem (key : string) : M unit :=
  fun _ w =>
    (Normal tt,
     {| localStorage := delete key (localStorage w);
        token := token w; pushed := pushed w; fetched := fetched w |}).

(** [router.push(dest)] *)
Definition router_push (dest : string) : M unit :=
  fun _ w =>
    (Normal tt,
     {| localStorage := localStorage w; token := token w;
        pushed := dest :: pushed w; fetched := fetched w |}).

(** [setToken(v)] *)
Definition setToken (v : value) : M unit :=
  fun _ w =>
    (Normal tt,
     {| localStorage := localStorage w; token := v;
        pushed := pushed w; fetched := fetched w |}).

(** [await fetch(url, init)] *)
Definition fetch (rq : Request) : M Response :=
  fun e w =>
    let w' := {| localStorage := localStorage w; token := token w;
                 pushed := pushed w; fetched := rq :: fetched w |} in
    match network e rq with
    | Some r => (Normal r, w')
    | None => (Throw NetworkError, w')
    end.

(** [await res.json()] *)
Definition res_json (r : Response) : M value :=
  match json r with
  | Some v => ret v
  | None => throw SyntaxError
  end.

(** [await res.text()] *)
Definition res_text (r : Response) : M string := ret (text r).

End Runtime.

(** ** [frontend/lib/api.ts], first revision (lines 1-59) *)

Module Api.
Import JS Runtime.

(** [process.env.NEXT_PUBLIC_API_BASE_URL || "http://127.0.0.1:8000"] *)
Definition API_BASE : M string :=
  v <- getenv "NEXT_PUBLIC_API_BASE_URL";;
  ret (to_string (or_else v (VStr "http://127.0.0.1:8000"))).

(** [options: { form?: boolean; token?: string }]; a missing [form] is
    [false], a missing [token] is [VUndefined]. *)
Record Options : Type := mkOptions {
  form : bool;
  opt_token : value;
}.

Definition no_options : Options := {| form := false; opt_token := VUndefined |}.

(** The headers object of [post]. *)
Definition post_headers (options : Options) : gmap string string :=
  let headers : gmap string string :=
    {[ "Content-Type" :=
         if form options then "application/x-www-form-urlencoded"
         else "application/json" ]} in
  if truthy (opt_token options)
  then <[ "Authorization" := "Bearer " +:+ to_string (opt_token options) ]> headers
  else headers.

(** The [body] entry of the init object of [post]. *)
Definition post_body (body : list (string * value)) (options : Options) : option string :=
  if form options then Some (URLSearchParams_toString body)
  else JSON_stringify (VObj body).

Definition post (path : string) (body : list (string * value)) (options : Options)
  : M value :=
  base <- API_BASE;;
  res <- fetch {| url := base +:+ path;
                  method := "POST";
                  headers := post_headers options;
                  body := post_body body options |};;
  if negb (ok res) then
    t <- res_text res;;
    throw (Error t)
  else res_json res.

Definition get (path : string) (tok : value) : M value :=
  let headers : gmap string string :=
    if truthy tok
    then {[ "Authorization" := "Bearer " +:+ to_string tok ]}
    else ∅ in
  base <- API_BASE;;
  res <- fetch {| url := base +:+ path;
                  method := "GET";
                  headers := headers;
                  body := None |};;
  if negb (ok res) then
    t <- res_text res;;
    throw (Error t)
  else res_json res.

Definition login (username password : string) : M value :=
  let data := [("grant_type", VStr "password");
               ("username", VStr username);
               ("password", VStr password)] in
  r <- post "/auth/login" data {| form := true; opt_token := VUndefined |};;
  lift (get_prop r "access_token").

Definition getMe (tok : string) : M value := get "/users/me" (VStr tok).

End Api.

(** ** [frontend/lib/api.ts], second revision (lines 60-94) *)

Module Api2.
Import JS Runtime.

Definition API_BASE : M string :=
  v <- getenv "NEXT_PUBLIC_API_BASE_URL";;
  ret (to_string (or_else v (VStr "http://127.0.0.1:8000"))).

Definition post_headers (options : Api.Options) : gmap string string :=
  let headers : gmap string string := ∅ in
  let headers :=
    if Api.form options
    then <[ "Content-Type" := "application/x-www-form-urlencoded" ]> headers
    else <[ "Content-Type" := "application/json" ]> headers in
  if truthy (Api.opt_token options)
  then <[ "Authorization" := "Bearer " +:+ to_string (Api.opt_token options) ]> headers
  else headers.

Definition post (path : string) (body : list (string * value)) (options : Api.Options)
  : M value :=
  base <- API_BASE;;
  res <- fetch {| url := base +:+ path;
                  method := "POST";
                  headers := post_headers options;
                  body := Api.post_body body options |};;
  res_json res.

End Api2.

(** ** [context/AuthContext.tsx] *)

Module AuthContext.
Import JS Runtime.

(** The effect [AuthProvider] runs once after mounting (lines 25-28). *)
Definition mount_effect : M unit :=
  saved <- getItem "token";;
  if truthy saved then setToken saved else ret tt.

(** Lines 30-47. *)
Definition login (email password : string) : M unit :=
  base <- getenv "NEXT_PUBLIC_API_URL";;
  res <- fetch {| url := to_string base +:+ "/login";
                  method := "POST";
                  headers := {[ "Content-Type" := "application/json" ]};
                  body := JSON_stringify
                            (VObj [("email", VStr email);
                                   ("password", VStr password)]) |};;
  if negb (ok res) then
    err <- res_json res;;
    detail <- lift (get_prop err "detail");;
    throw (Error (to_string (or_else detail (VStr "Login failed"))))
  else
    data <- res_json res;;
    access_token <- lift (get_prop data "access_token");;
    setItem "token" access_token;;
    setToken access_token;;
    router_push "/dashboard".

(** Lines 49-53. *)
Definition logout : M unit :=
  removeItem "token";;
  setToken VNull;;
  router_push "/login".

(** The object handed to [AuthContext.Provider] on each render. *)
Record AuthContextType : Type := mkAuthContextType {
  isAuthenticated : bool;
  ctx_token : value;
  ctx_login : string -> string -> M unit;
  ctx_logout : M unit;
}.

(** Lines 55-66: the value is rebuilt from the state cell on each render
    of the provider, and a [setToken] that changes the cell renders it
    again. *)
Definition AuthProvider (w : World) : AuthContextType :=
  {| isAuthenticated := truthy (token w);
     ctx_token := token w;
     ctx_login := login;
     ctx_logout := logout |}.

(** [useContext(AuthContext)]: the value of the nearest provider above
    the calling component, [undefined] (the default given to
    [createContext]) when there is none.  [providers] lists the worlds of
    the enclosing providers, nearest first. *)
Definition useContext (providers : list World) : option AuthContextType :=
  match providers with
  | [] => None
  | w :: _ => Some (AuthProvider w)
  end.

(** Lines 69-73; an object is never falsy. *)
Definition useAuth (providers : list World) : completion AuthContextType :=
  match useContext providers with
  | None => Throw (Error "useAuth must be used inside AuthProvider")
  | Some ctx => Normal ctx
  end.

(** The state cell at process start: [useState(null)], nothing pushed or
    fetched yet, [localStorage] as the previous run left it. *)
Definition start (durable : gmap string string) : World :=
  {| localStorage := durable; token := VNull; pushed := []; fetched := [] |}.

(** A restart keeps the durable store only and runs the mount effect. *)
Definition restart (e : Env) (w : World) : World :=
  snd (mount_effect e (start (localStorage w))).

(** The states a session goes through.  The remote end may answer the
    same request differently from one step to the next: each step runs
    against any environment that [allowed] admits. *)
Inductive reachable (allowed : Env -> Prop) : World -> Prop :=
| reach_start durable : reachable allowed (start durable)
| reach_mount e w :
    allowed e -> reachable allowed w ->
    reachable allowed (snd (mount_effect e w))
| reach_login e w email password :
    allowed e -> reachable allowed w ->
    reachable allowed (snd (login email password e w))
| reach_logout e w :
    allowed e -> reachable allowed w ->
    reachable allowed (snd (logout e w)).

End AuthContext.

(** ** The pages that read the session *)

Module Pages.
Import JS Runtime AuthContext.

(** What a component returns: [null] or markup, named by its heading. *)
Inductive element : Type :=
| Null
| Markup (heading : string).

(** One evaluation of a component: what it returns and the effect it
    registers with [useEffect]. *)
Record Rendering : Type := mkRendering {
  output : element;
  effect : M unit;
}.

(** [app/dashboard/page.tsx] *)
Definition DashboardPage (providers : list World) : completion Rendering :=
  match useAuth providers with
  | Throw x => Throw x
  | Normal ctx =>
      let token := ctx_token ctx in
      Normal {| effect := if negb (truthy token) then router_push "/login"
                          else ret tt;
                output := Markup "Welcome to your Dashboard" |}
  end.

(** [app/deep_dive/page.tsx] *)
Definition DeepDivePage (providers : list World) : completion Rendering :=
  match useAuth providers with
  | Throw x => Throw x
  | Normal ctx =>
      let token := ctx_token ctx in
      Normal {| effect := if negb (truthy token) then router_push "/login"
                          else ret tt;
                output := if negb (truthy token) then Null
                          else Markup "Deep Dive" |}
  end.

(** [ConsultPage] *)
Definition ConsultPage (providers : list World) : completion Rendering :=
  match useAuth providers with
  | Throw x => Throw x
  | Normal ctx =>
      let token := ctx_token ctx in
      Normal {| effect := if negb (truthy token) then router_push "/login"
                          else ret tt;
                output := if negb (truthy token) then Null
                          else Markup "Consult AI Agent" |}
  end.

(** [AdminPage], lines 20-27: the effect that loads the pending users;
    the value is what the promise chain hands to [setPending]. *)
Definition AdminPage_effect (token : value) : M value :=
  if negb (truthy token) then ret VUndefined
  else
    res <- fetch {| url := "http://127.0.0.1:8000/admin/users/pending";
                    method := "GET";
                    headers := {[ "Authorization" := "Bearer " +:+ to_string token ]};
                    body := None |};;
    res_json res.

(** [AdminPage], lines 29-32, up to the local [pending] list. *)
Definition approve (token : value) (id : number) : M value :=
  Api.post ("/admin/approve/" +:+ number_to_string id) []
           {| Api.form := false; Api.opt_token := token |}.

(** A page mounted under the provider of [ClientLayout]: rendered against
    the current world, then its effect runs. *)
Definition evaluate (page : list World -> completion Rendering) (e : Env) (w : World)
  : completion element * World :=
  match page [w] with
  | Throw x => (Throw x, w)
  | Normal r => (Normal (output r), snd (effect r e w))
  end.

End Pages.

(** ** Properties *)

Import JS Runtime.

(** *** Running the computations *)

Ltac run :=
  cbv beta iota delta
    [AuthContext.login AuthContext.logout AuthContext.mount_effect
     Api.post Api2.post Api.get Api.login Api.getMe Api.API_BASE Api2.API_BASE
     bind ret throw lift getenv getItem setItem removeItem
     setToken router_push fetch res_json res_text fst snd];
  cbn [localStorage token pushed fetched negb].

(** The request [AuthContext.login] builds at lines 31-38. *)
Definition login_request (e : Env) (email password : string) : Request :=
  {| url := to_string (match process_env e !! "NEXT_PUBLIC_API_URL" with
                       | Some s => VStr s
                       | None => VUndefined
                       end) +:+ "/login";
     method := "POST";
     headers := {[ "Content-Type" := "application/json" ]};
     body := JSON_stringify (VObj [("email", VStr email); ("password", VStr password)]) |}.

(** Whatever the remote end answers, [login] hands exactly this request
    to [fetch], once. *)
Lemma login_fetches (e : Env) (w : World) (email password : string) :
  fetched (snd (AuthContext.login email password e w))
  = login_request e email password :: fetched w.
Proof.
  run. fold (login_request e email password).
  destruct (network e (login_request e email password)) as [r|]; [|reflexivity].
  destruct (ok r); run.
  - destruct (json r) as [v|]; run; [|reflexivity].
    destruct (get_prop v "access_token"); reflexivity.
  - destruct (json r) as [v|]; run; [|reflexivity].
    destruct (get_prop v "detail"); reflexivity.
Qed.

(** A successful answer carrying the token [t]. *)
Definition answers_token (e : Env) (email password t : string) : Prop :=
  exists r data,
    network e (login_request e email password) = Some r /\
    ok r = true /\
    json r = Some data /\
    get_prop data "access_token" = Normal (VStr t).

(** What [login] does on such an answer, for every [t]. *)
Lemma login_success_world (e : Env) (w : World) (email password t : string) :
  answers_token e email password t ->
  AuthContext.login email password e w
  = (Normal tt,
     {| localStorage := <["token" := t]> (localStorage w);
        token := VStr t;
        pushed := "/dashboard" :: pushed w;
        fetched := login_request e email password :: fetched w |}).
Proof.
  intros (r & data & Hnet & Hok & Hjson & Hprop).
  run. fold (login_request e email password).
  rewrite Hnet, Hok. run. rewrite Hjson. run. rewrite Hprop. reflexivity.
Qed.

(** A stubbed remote end: every request is answered with status [st] and
    the JSON body [v]. *)
Definition stub (env : gmap string string) (st : Z) (v : value) : Env :=
  {| process_env := env;
     network := fun _ =>
       Some {| status := st;
               text := default "" (JSON_stringify v);
               json := Some v |} |}.

(** *** Successful login *)

(** The post-condition as the specification words it, for every token. *)
Definition login_success_claim : Prop :=
  forall (e : Env) (w : World) (email password t : string),
    answers_token e email password t ->
    let w' := snd (AuthContext.login email password e w) in
    AuthContext.isAuthenticated (AuthContext.AuthProvider w') = true /\
    localStorage w' !! "token" = Some t /\
    pushed w' = "/dashboard" :: pushed w.

(** C1, as stated, fails: a successful answer whose [access_token] is the
    empty string is stored and navigated on, but [Boolean("")] is false,
    so [isAuthenticated] is false after the login. *)
Lemma login_success_claim_fails : ~ login_success_claim.
Proof.
  intros H.
  destruct (H (stub ∅ 200 (VObj [("access_token", VStr "")]))
              (AuthContext.start ∅) "a@b.com" "secret" "") as [Hauth _].
  - eexists _, _. repeat split; reflexivity.
  - vm_compute in Hauth. discriminate.
Qed.

(** C1, amended: after a login that is answered successfully with a
    non-empty [access_token] [t], the call completes normally,
    [isAuthenticated] is true, the [localStorage] slot ["token"] holds [t],
    and exactly one navigation, to ["/dashboard"], has been added. *)
Theorem login_success (e : Env) (w : World) (email password t : string) :
  answers_token e email password t ->
  t <> "" ->
  let w' := snd (AuthContext.login email password e w) in
  fst (AuthContext.login email password e w) = Normal tt /\
  AuthContext.isAuthenticated (AuthContext.AuthProvider w') = true /\
  localStorage w' !! "token" = Some t /\
  pushed w' = "/dashboard" :: pushed w.
Proof.
  intros Hans Ht. rewrite (login_success_world e w email password t Hans).
  cbn. repeat split.
  - apply negb_true_iff, String.eqb_neq, Ht.
  - apply lookup_insert_eq.
Qed.

(** The end-to-end scenario of the specification: ["a@b.com"]/["secret"]
    against a stub answering [{access_token: "tok123"}]. *)
Lemma login_success_witness :
  let e := stub ∅ 200 (VObj [("access_token", VStr "tok123")]) in
  let w' := snd (AuthContext.login "a@b.com" "secret" e (AuthContext.start ∅)) in
  fst (AuthContext.login "a@b.com" "secret" e (AuthContext.start ∅)) = Normal tt /\
  AuthContext.isAuthenticated (AuthContext.AuthProvider w') = true /\
  localStorage w' !! "token" = Some "tok123" /\
  pushed w' = ["/dashboard"].
Proof.
  apply (login_success (stub ∅ 200 (VObj [("access_token", VStr "tok123")]))
           (AuthContext.start ∅) "a@b.com" "secret" "tok123").
  - eexists _, _. repeat split; reflexivity.
  - discriminate.
Defined.

(** *** Failed login *)

(** What [login] does on an answer with a non-success status. *)
Lemma login_failure_world (e : Env) (w : World) (email password : string)
      (r : Response) :
  network e (login_request e email password) = Some r ->
  ok r = false ->
  AuthContext.login email password e w
  = (Throw (match json r with
            | None => SyntaxError
            | Some err =>
                match get_prop err "detail" with
                | Normal detail =>
                    Error (to_string (or_else detail (VStr "Login failed")))
                | Throw x => x
                end
            end),
     {| localStorage := localStorage w;
        token := token w;
        pushed := pushed w;
        fetched := login_request e email password :: fetched w |}).
Proof.
  intros Hnet Hok. run. fold (login_request e email password).
  rewrite Hnet, Hok. run.
  destruct (json r) as [err|]; run; [|reflexivity].
  destruct (get_prop err "detail"); reflexivity.
Qed.

(** The failure post-condition as the specification words it: the
    message is the [detail] field whenever the body has one. *)
Definition login_failure_claim : Prop :=
  forall (e : Env) (w : World) (email password : string) (r : Response)
         (err : value) (detail : string),
    network e (login_request e email password) = Some r ->
    ok r = false ->
    json r = Some err ->
    get_prop err "detail" = Normal (VStr detail) ->
    let w' := snd (AuthContext.login email password e w) in
    token w' = token w /\
    localStorage w' = localStorage w /\
    fst (AuthContext.login email password e w) = Throw (Error detail).

(** C2, as stated, fails: a 401 whose body is [{detail: ""}] has a
    [detail] field, yet the rejection carries ["Login failed"], since
    [err.detail || "Login failed"] takes the fallback for every falsy
    [detail]. *)
Lemma login_failure_claim_fails : ~ login_failure_claim.
Proof.
  intros H.
  destruct (H (stub ∅ 401 (VObj [("detail", VStr "")]))
              (AuthContext.start ∅) "a@b.com" "secret"
              {| status := 401;
                 text := default "" (JSON_stringify (VObj [("detail", VStr "")]));
                 json := Some (VObj [("detail", VStr "")]) |}
              (VObj [("detail", VStr "")]) "")
    as (_ & _ & Hmsg); try reflexivity.
  vm_compute in Hmsg. discriminate.
Qed.

(** C2, amended: a login answered with a non-success status rejects and
    leaves [isAuthenticated], the [token] cell, [localStorage] and the
    navigation log as they were; when the body is a JSON value with a
    readable [detail], the message is [detail] (as a string) if [detail]
    is truthy, so present and non-empty, and ["Login failed"] otherwise. *)
Theorem login_failure (e : Env) (w : World) (email password : string)
        (r : Response) :
  network e (login_request e email password) = Some r ->
  ok r = false ->
  let c := fst (AuthContext.login email password e w) in
  let w' := snd (AuthContext.login email password e w) in
  (exists x, c = Throw x) /\
  AuthContext.isAuthenticated (AuthContext.AuthProvider w')
  = AuthContext.isAuthenticated (AuthContext.AuthProvider w) /\
  token w' = token w /\
  localStorage w' = localStorage w /\
  pushed w' = pushed w /\
  (forall err detail,
      json r = Some err -> get_prop err "detail" = Normal (VStr detail) ->
      detail <> "" -> c = Throw (Error detail)) /\
  (forall err detail,
      json r = Some err -> get_prop err "detail" = Normal detail ->
      c = Throw (Error (if truthy detail then to_string detail
                        else "Login failed"))).
Proof.
  intros Hnet Hok. rewrite (login_failure_world e w email password r Hnet Hok).
  cbn [fst snd]. split; [eauto|]. repeat split.
  - intros err detail -> -> Hne. unfold or_else. cbn [truthy].
    apply String.eqb_neq in Hne. rewrite Hne. reflexivity.
  - intros err detail -> ->. unfold or_else.
    destruct (truthy detail); reflexivity.
Qed.

(** The second end-to-end scenario: HTTP 401 with
    [{detail: "Invalid credentials"}]. *)
Lemma login_failure_witness :
  let e := stub ∅ 401 (VObj [("detail", VStr "Invalid credentials")]) in
  let w := AuthContext.start ∅ in
  fst (AuthContext.login "a@b.com" "secret" e w)
  = Throw (Error "Invalid credentials") /\
  AuthContext.isAuthenticated
    (AuthContext.AuthProvider (snd (AuthContext.login "a@b.com" "secret" e w)))
  = false.
Proof.
  pose proof (login_failure
                (stub ∅ 401 (VObj [("detail", VStr "Invalid credentials")]))
                (AuthContext.start ∅) "a@b.com" "secret"
                {| status := 401;
                   text := default ""
                             (JSON_stringify
                                (VObj [("detail", VStr "Invalid credentials")]));
                   json := Some (VObj [("detail", VStr "Invalid credentials")]) |}
                eq_refl eq_refl) as (_ & Hauth & _ & _ & _ & Hmsg & _).
  split.
  - apply (Hmsg _ "Invalid credentials" eq_refl eq_refl). discriminate.
  - exact Hauth.
Defined.

(** *** The transport *)

(** The base every call of [lib/api.ts] is issued against. *)
Definition api_base (e : Env) : string :=
  to_string (or_else (match process_env e !! "NEXT_PUBLIC_API_BASE_URL" with
                      | Some s => VStr s
                      | None => VUndefined
                      end) (VStr "http://127.0.0.1:8000")).

(** The request [post] builds (lines 15-30 and 73-91). *)
Definition post_request (e : Env) (path : string) (body : list (string * value))
           (options : Api.Options) : Request :=
  {| url := api_base e +:+ path;
     method := "POST";
     headers := Api.post_headers options;
     body := Api.post_body body options |}.

Definition log_request (rq : Request) (w : World) : World :=
  {| localStorage := localStorage w; token := token w;
     pushed := pushed w; fetched := rq :: fetched w |}.

(** [post] of the first revision, in one equation. *)
Lemma post_world (e : Env) (w : World) (path : string)
      (body : list (string * value)) (options : Api.Options) :
  Api.post path body options e w
  = (match network e (post_request e path body options) with
     | None => Throw NetworkError
     | Some r =>
         if ok r then
           match json r with Some v => Normal v | None => Throw SyntaxError end
         else Throw (Error (text r))
     end,
     log_request (post_request e path body options) w).
Proof.
  run. fold (api_base e). fold (post_request e path body options).
  fold (log_request (post_request e path body options) w).
  destruct (network e (post_request e path body options)) as [r|]; [|reflexivity].
  destruct (ok r); run; [|reflexivity].
  destruct (json r); reflexivity.
Qed.

(** The two revisions build the same headers. *)
Lemma post_headers_same (options : Api.Options) :
  Api2.post_headers options = Api.post_headers options.
Proof.
  unfold Api2.post_headers, Api.post_headers.
  destruct (Api.form options); rewrite insert_empty; reflexivity.
Qed.

(** [post] of the second revision, in one equation. *)
Lemma post2_world (e : Env) (w : World) (path : string)
      (body : list (string * value)) (options : Api.Options) :
  Api2.post path body options e w
  = (match network e (post_request e path body options) with
     | None => Throw NetworkError
     | Some r =>
         match json r with Some v => Normal v | None => Throw SyntaxError end
     end,
     log_request (post_request e path body options) w).
Proof.
  run. rewrite post_headers_same.
  fold (api_base e). fold (post_request e path body options).
  fold (log_request (post_request e path body options) w).
  destruct (network e (post_request e path body options)) as [r|]; [|reflexivity].
  destruct (json r); reflexivity.
Qed.

(** *** The login request *)

Lemma api_login_fetches (e : Env) (w : World) (username password : string) :
  fetched (snd (Api.login username password e w))
  = post_request e "/auth/login"
      [("grant_type", VStr "password"); ("username", VStr username);
       ("password", VStr password)]
      {| Api.form := true; Api.opt_token := VUndefined |} :: fetched w.
Proof.
  unfold Api.login, bind. rewrite post_world.
  destruct (network e _) as [r|]; [|reflexivity].
  destruct (ok r); [|reflexivity].
  destruct (json r); reflexivity.
Qed.

(** The request as the specification words it: form encoding of
    [{username, password}]. *)
Definition login_request_claim : Prop :=
  forall (e : Env) (w : World) (identifier secret : string),
  exists rq,
    fetched (snd (AuthContext.login identifier secret e w)) = rq :: fetched w /\
    headers rq !! "Content-Type" = Some "application/x-www-form-urlencoded" /\
    body rq = Some (URLSearchParams_toString
                      [("username", VStr identifier); ("password", VStr secret)]).

(** The request is not that one: for ["a@b.com"]/["p"] the request of
    [AuthContext.login] is declared [application/json]. *)
Lemma login_request_claim_fails : ~ login_request_claim.
Proof.
  intros H.
  destruct (H (stub ∅ 200 VNull) (AuthContext.start ∅) "a@b.com" "p")
    as (rq & Hrq & Hct & _).
  rewrite login_fetches in Hrq. injection Hrq as <-.
  vm_compute in Hct. discriminate.
Qed.

(** C3 on the code: for every identifier and secret, [AuthContext.login]
    issues exactly one request, a POST to [NEXT_PUBLIC_API_URL] followed
    by [/login], declared [application/json], whose body is the JSON object
    with the members [email] (the identifier) and [password] (the secret)
    in this order, where the claim has a form-encoded [username] and
    [password]; the sibling [login] of [lib/api.ts] does send the form,
    [grant_type=password], [username] and [password], to [/auth/login]
    under the configured base. *)
Theorem login_request_shape (e : Env) (w : World) (identifier secret : string) :
  (exists rq,
      fetched (snd (AuthContext.login identifier secret e w)) = rq :: fetched w /\
      url rq = to_string (match process_env e !! "NEXT_PUBLIC_API_URL" with
                          | Some s => VStr s
                          | None => VUndefined
                          end) +:+ "/login" /\
      method rq = "POST" /\
      headers rq = {[ "Content-Type" := "application/json" ]} /\
      body rq = Some ("{" +:+
                      String.concat ","
                        [json_quote "email" +:+ ":" +:+ json_quote identifier;
                         json_quote "password" +:+ ":" +:+ json_quote secret]
                      +:+ "}")) /\
  (exists rq,
      fetched (snd (Api.login identifier secret e w)) = rq :: fetched w /\
      url rq = api_base e +:+ "/auth/login" /\
      method rq = "POST" /\
      headers rq = {[ "Content-Type" := "application/x-www-form-urlencoded" ]} /\
      body rq = Some (String.concat "&"
                        ["grant_type=password";
                         "username=" +:+ form_encode identifier;
                         "password=" +:+ form_encode secret])).
Proof.
  split.
  - exists (login_request e identifier secret).
    split; [apply login_fetches|]. repeat split.
  - eexists. split; [apply api_login_fetches|]. repeat split.
Qed.

(** *** Non-success answers to [post] *)

(** The failure contract as the specification words it, for a given
    [post]: a non-success answer makes the call throw, and the error
    carries the [detail] field when the body has one. *)
Definition post_failure_claim
           (post : string -> list (string * value) -> Api.Options -> M value)
  : Prop :=
  forall (e : Env) (w : World) (path : string) (body : list (string * value))
         (options : Api.Options) (r : Response),
    network e (post_request e path body options) = Some r ->
    ok r = false ->
    exists x,
      fst (post path body options e w) = Throw x /\
      forall err detail,
        json r = Some err -> get_prop err "detail" = Normal (VStr detail) ->
        x = Error detail.

(** C4, as stated, fails for both revisions, on a 401 answering
    [{detail: "Invalid credentials"}]: the first throws an error whose
    message is the whole body text, the second returns the parsed body. *)
Lemma post_failure_claim_fails :
  ~ post_failure_claim Api.post /\ ~ post_failure_claim Api2.post.
Proof.
  split; intros H;
    destruct (H (stub ∅ 401 (VObj [("detail", VStr "Invalid credentials")]))
                (AuthContext.start ∅) "/auth/login"
                [("username", VStr "a@b.com"); ("password", VStr "p")]
                {| Api.form := true; Api.opt_token := VUndefined |}
                _ eq_refl eq_refl) as (x & Hx & Hd).
  - specialize (Hd _ _ eq_refl eq_refl). subst x.
    vm_compute in Hx. discriminate.
  - vm_compute in Hx. discriminate.
Qed.

(** C4, amended: when the answer to a [post] has a non-success status,
    the first revision (lines 10-34) throws [Error] with the raw body text
    as its message, whatever the body holds, and whatever a caller does
    with the awaited result is skipped, the caller rejecting with that
    same error; the second revision (lines 68-94) does not look at the
    status and completes with the parsed body.  Both have issued exactly
    the one request. *)
Theorem post_failure (e : Env) (w : World) (path : string)
        (body : list (string * value)) (options : Api.Options) (r : Response) :
  network e (post_request e path body options) = Some r ->
  ok r = false ->
  Api.post path body options e w
  = (Throw (Error (text r)), log_request (post_request e path body options) w) /\
  Api2.post path body options e w
  = (match json r with Some v => Normal v | None => Throw SyntaxError end,
     log_request (post_request e path body options) w) /\
  (forall (B : Type) (k : value -> M B),
      fst (bind (Api.post path body options) k e w) = Throw (Error (text r))).
Proof.
  intros Hnet Hok. unfold bind. rewrite post_world, post2_world, Hnet, Hok.
  repeat split.
Qed.

Lemma post_failure_witness :
  let e := stub ∅ 401 (VObj [("detail", VStr "Invalid credentials")]) in
  let w := AuthContext.start ∅ in
  let payload := [("username", VStr "a@b.com"); ("password", VStr "p")] in
  let options := {| Api.form := true; Api.opt_token := VUndefined |} in
  fst (Api.post "/auth/login" payload options e w)
  = Throw (Error ("{" +:+ json_quote "detail" +:+ ":"
                  +:+ json_quote "Invalid credentials" +:+ "}")) /\
  fst (Api2.post "/auth/login" payload options e w)
  = Normal (VObj [("detail", VStr "Invalid credentials")]).
Proof.
  destruct (post_failure
              (stub ∅ 401 (VObj [("detail", VStr "Invalid credentials")]))
              (AuthContext.start ∅) "/auth/login"
              [("username", VStr "a@b.com"); ("password", VStr "p")]
              {| Api.form := true; Api.opt_token := VUndefined |}
              _ eq_refl eq_refl) as (H1 & H2 & _).
  cbv zeta. rewrite H1, H2. split; reflexivity.
Defined.

(** *** Encoding *)

Fixpoint string_forall (p : ascii -> bool) (s : string) : bool :=
  match s with
  | EmptyString => true
  | String c rest => p c && string_forall p rest
  end.

(** The bytes of an encoded name or value. *)
Definition form_byte (c : ascii) : bool :=
  form_safe c || (N_of_ascii c =? 43)%N || (N_of_ascii c =? 37)%N.

(** The bytes of a serialized form: the above and the separators. *)
Definition form_body_byte (c : ascii) : bool :=
  form_byte c || (N_of_ascii c =? 61)%N || (N_of_ascii c =? 38)%N.

Lemma string_forall_app (p : ascii -> bool) (s t : string) :
  string_forall p (s +:+ t) = string_forall p s && string_forall p t.
Proof.
  induction s as [|c s IH]; simpl; [reflexivity|].
  rewrite IH. apply andb_assoc.
Qed.

Lemma string_forall_weaken (p q : ascii -> bool) (s : string) :
  (forall c, p c = true -> q c = true) ->
  string_forall p s = true -> string_forall q s = true.
Proof.
  intros Hpq. induction s as [|c s IH]; cbn; [reflexivity|].
  intros [Hc Hs]%andb_true_iff. rewrite (Hpq c Hc). cbn. auto.
Qed.

Lemma form_encode_char_bytes (c : ascii) :
  string_forall form_byte (form_encode_char c) = true.
Proof. destruct c as [[] [] [] [] [] [] [] []]; reflexivity. Qed.

Lemma form_encode_bytes (s : string) :
  string_forall form_byte (form_encode s) = true.
Proof.
  induction s as [|c s IH]; [reflexivity|].
  cbn [form_encode].
  rewrite string_forall_app, form_encode_char_bytes, IH. reflexivity.
Qed.

Lemma concat_bytes (p : ascii -> bool) (sep : string) (l : list string) :
  string_forall p sep = true ->
  Forall (fun s => string_forall p s = true) l ->
  string_forall p (String.concat sep l) = true.
Proof.
  intros Hsep. induction 1 as [|s l Hs Hl IH]; [reflexivity|].
  destruct l as [|s' l']; [exact Hs|].
  change (String.concat sep (s :: s' :: l'))
    with (s +:+ sep +:+ String.concat sep (s' :: l')).
  rewrite !string_forall_app, Hs, Hsep, IH. reflexivity.
Qed.

Lemma URLSearchParams_bytes (fields : list (string * value)) :
  string_forall form_body_byte (URLSearchParams_toString fields) = true.
Proof.
  assert (Hw : forall s, string_forall form_byte s = true ->
                         string_forall form_body_byte s = true).
  { intros s. apply string_forall_weaken. intros c Hc.
    unfold form_body_byte. rewrite Hc. reflexivity. }
  unfold URLSearchParams_toString. apply concat_bytes; [reflexivity|].
  apply Forall_map, Forall_forall. intros [k v] _. cbn [fst snd].
  rewrite !string_forall_app.
  rewrite (Hw _ (form_encode_bytes k)), (Hw _ (form_encode_bytes (to_string v))).
  reflexivity.
Qed.

Lemma post_content_type (options : Api.Options) :
  Api.post_headers options !! "Content-Type"
  = Some (if Api.form options then "application/x-www-form-urlencoded"
          else "application/json").
Proof.
  unfold Api.post_headers.
  destruct (truthy (Api.opt_token options)).
  - rewrite lookup_insert_ne by discriminate. apply lookup_singleton_eq.
  - apply lookup_singleton_eq.
Qed.

(** The same payload in structured mode. *)
Example post_body_structured :
  Api.post_body [("username", VStr "a@b.com"); ("password", VStr "p")]
                Api.no_options
  = Some ("{" +:+ dquote +:+ "username" +:+ dquote +:+ ":"
          +:+ dquote +:+ "a@b.com" +:+ dquote +:+ ","
          +:+ dquote +:+ "password" +:+ dquote +:+ ":"
          +:+ dquote +:+ "p" +:+ dquote +:+ "}").
Proof. reflexivity. Qed.

(** C5: every request of [post], in either revision, has its
    [Content-Type] and its body fixed together by the [form] option: form
    mode sends the URL-encoded pairs (only alphanumerics, [*-._+%] and the
    separators [=] and [&]) under [application/x-www-form-urlencoded],
    structured mode sends [JSON.stringify] of the payload under
    [application/json]; and [{username: "a@b.com", password: "p"}] is sent
    in form mode as [username=a%40b.com&password=p]. *)
Theorem post_encoding (e : Env) (w : World) (path : string)
        (payload : list (string * value)) (options : Api.Options) :
  let rq := post_request e path payload options in
  fetched (snd (Api.post path payload options e w)) = rq :: fetched w /\
  fetched (snd (Api2.post path payload options e w)) = rq :: fetched w /\
  (if Api.form options then
     headers rq !! "Content-Type" = Some "application/x-www-form-urlencoded" /\
     body rq = Some (URLSearchParams_toString payload) /\
     string_forall form_body_byte (URLSearchParams_toString payload) = true
   else
     headers rq !! "Content-Type" = Some "application/json" /\
     body rq = JSON_stringify (VObj payload)) /\
  Api.post_body [("username", VStr "a@b.com"); ("password", VStr "p")]
                {| Api.form := true; Api.opt_token := VUndefined |}
  = Some "username=a%40b.com&password=p".
Proof.
  cbv zeta. rewrite post_world, post2_world. cbn [snd log_request fetched].
  repeat split.
  unfold post_request, Api.post_body. cbn [headers body].
  rewrite post_content_type.
  destruct (Api.form options); repeat split.
  apply URLSearchParams_bytes.
Qed.

(** *** Guarded pages *)

Definition push (dest : string) (w : World) : World :=
  {| localStorage := localStorage w; token := token w;
     pushed := dest :: pushed w; fetched := fetched w |}.

(** [DeepDivePage] and [ConsultPage] follow the guard: without a session
    they return [null] and push ["/login"], with one they return their
    markup and push nothing. *)
Lemma guard_deep_dive_consult (e : Env) (w : World) :
  (AuthContext.isAuthenticated (AuthContext.AuthProvider w) = false ->
   Pages.evaluate Pages.DeepDivePage e w = (Normal Pages.Null, push "/login" w) /\
   Pages.evaluate Pages.ConsultPage e w = (Normal Pages.Null, push "/login" w)) /\
  (AuthContext.isAuthenticated (AuthContext.AuthProvider w) = true ->
   Pages.evaluate Pages.DeepDivePage e w = (Normal (Pages.Markup "Deep Dive"), w) /\
   Pages.evaluate Pages.ConsultPage e w
   = (Normal (Pages.Markup "Consult AI Agent"), w)).
Proof.
  unfold Pages.evaluate, Pages.DeepDivePage, Pages.ConsultPage,
    AuthContext.useAuth, AuthContext.useContext, AuthContext.AuthProvider.
  cbn. split; intros ->; cbn; split; reflexivity.
Qed.

(** With a session, [DashboardPage] renders and pushes nothing. *)
Lemma dashboard_authenticated (e : Env) (w : World) :
  AuthContext.isAuthenticated (AuthContext.AuthProvider w) = true ->
  Pages.evaluate Pages.DashboardPage e w
  = (Normal (Pages.Markup "Welcome to your Dashboard"), w).
Proof.
  unfold Pages.evaluate, Pages.DashboardPage,
    AuthContext.useAuth, AuthContext.useContext, AuthContext.AuthProvider.
  cbn. intros ->. reflexivity.
Qed.

(** C6 on the code: in every state without a session ([isAuthenticated]
    false), [DeepDivePage] returns [null] and pushes ["/login"], whereas
    [DashboardPage] pushes ["/login"] too but returns its markup all the
    same. *)
Theorem dashboard_renders_without_session (e : Env) (w : World) :
  AuthContext.isAuthenticated (AuthContext.AuthProvider w) = false ->
  Pages.evaluate Pages.DeepDivePage e w = (Normal Pages.Null, push "/login" w) /\
  Pages.evaluate Pages.DashboardPage e w
  = (Normal (Pages.Markup "Welcome to your Dashboard"), push "/login" w).
Proof.
  unfold Pages.evaluate, Pages.DeepDivePage, Pages.DashboardPage,
    AuthContext.useAuth, AuthContext.useContext, AuthContext.AuthProvider.
  cbn. intros ->. cbn. split; reflexivity.
Qed.

(** The state at process start with nothing stored. *)
Lemma dashboard_renders_without_session_witness :
  Pages.evaluate Pages.DeepDivePage (stub ∅ 200 VNull) (AuthContext.start ∅)
  = (Normal Pages.Null, push "/login" (AuthContext.start ∅)) /\
  Pages.evaluate Pages.DashboardPage (stub ∅ 200 VNull) (AuthContext.start ∅)
  = (Normal (Pages.Markup "Welcome to your Dashboard"),
     push "/login" (AuthContext.start ∅)).
Proof.
  apply (dashboard_renders_without_session (stub ∅ 200 VNull) (AuthContext.start ∅)).
  reflexivity.
Defined.

(** *** The derived flag *)

(** Every successful answer of the remote end carries a string token. *)
Definition string_tokens (e : Env) : Prop :=
  forall rq r data v,
    network e rq = Some r -> ok r = true -> json r = Some data ->
    get_prop data "access_token" = Normal v ->
    exists t, v = VStr t.

Definition null_or_string (v : value) : Prop :=
  v = VNull \/ exists s, v = VStr s.

(** Against such remote ends the [token] cell only ever holds [null] or
    a string. *)
Lemma token_null_or_string (allowed : Env -> Prop) (w : World) :
  (forall e, allowed e -> string_tokens e) ->
  AuthContext.reachable allowed w -> null_or_string (token w).
Proof.
  intros Hsrv.
  induction 1 as [durable|e w He Hw IH|e w email password He Hw IH|e w He Hw IH].
  - left. reflexivity.
  - run. destruct (localStorage w !! "token") as [s|]; cbn [truthy].
    + destruct (negb (String.eqb s "")); cbn; [right; eauto|exact IH].
    + exact IH.
  - run. fold (login_request e email password).
    destruct (network e (login_request e email password)) as [r|] eqn:Hnet;
      [|exact IH].
    destruct (ok r) eqn:Hok; run.
    + destruct (json r) as [data|] eqn:Hjson; run; [|exact IH].
      destruct (get_prop data "access_token") as [v|] eqn:Hprop; [|exact IH].
      cbn. right. exact (Hsrv e He _ _ _ _ Hnet Hok Hjson Hprop).
    + destruct (json r) as [err|]; run; [|exact IH].
      destruct (get_prop err "detail"); exact IH.
  - left. reflexivity.
Qed.

(** The flag as the specification words it: true exactly when the
    credential is not [null]. *)
Definition flag_claim : Prop :=
  forall (allowed : Env -> Prop) (w : World),
    AuthContext.reachable allowed w ->
    (AuthContext.isAuthenticated (AuthContext.AuthProvider w) = true
     <-> token w <> VNull).

(** C7, as stated, fails: a login answered with the empty string as
    [access_token] reaches a state whose credential is [""], not [null],
    and whose flag is false. *)
Lemma flag_claim_fails : ~ flag_claim.
Proof.
  intros H.
  pose (e := stub ∅ 200 (VObj [("access_token", VStr "")])).
  destruct (H (eq e)
              (snd (AuthContext.login "a@b.com" "secret" e (AuthContext.start ∅))))
    as [_ Hback].
  - apply AuthContext.reach_login; [reflexivity|apply AuthContext.reach_start].
  - assert (Hflag : false = true) by (apply Hback; vm_compute; discriminate).
    discriminate.
Qed.

(** C7, amended: in every reachable state [isAuthenticated] is
    [Boolean(token)], computed from the current [token] cell each time the
    provider renders: false for [null], and for a string true exactly when
    the string is not empty; against remote ends that answer with string
    tokens, the cell holds nothing but [null] or a string. *)
Theorem flag_is_truthiness (allowed : Env -> Prop) (w : World) :
  AuthContext.reachable allowed w ->
  AuthContext.isAuthenticated (AuthContext.AuthProvider w) = truthy (token w) /\
  (token w = VNull ->
   AuthContext.isAuthenticated (AuthContext.AuthProvider w) = false) /\
  (forall s, token w = VStr s ->
     (AuthContext.isAuthenticated (AuthContext.AuthProvider w) = true <-> s <> "")) /\
  ((forall e, allowed e -> string_tokens e) -> null_or_string (token w)).
Proof.
  intros Hw. split; [reflexivity|]. split; [|split].
  - cbn. intros ->. reflexivity.
  - cbn. intros s ->. cbn. rewrite negb_true_iff. apply String.eqb_neq.
  - intros Hsrv. exact (token_null_or_string allowed w Hsrv Hw).
Qed.

Lemma flag_is_truthiness_witness :
  let e := stub ∅ 200 (VObj [("access_token", VStr "tok123")]) in
  let w := snd (AuthContext.login "a@b.com" "secret" e (AuthContext.start ∅)) in
  AuthContext.isAuthenticated (AuthContext.AuthProvider w) = truthy (token w) /\
  (AuthContext.isAuthenticated (AuthContext.AuthProvider w) = true
   <-> "tok123" <> "").
Proof.
  pose (e := stub ∅ 200 (VObj [("access_token", VStr "tok123")])).
  destruct (flag_is_truthiness (eq e)
              (snd (AuthContext.login "a@b.com" "secret" e (AuthContext.start ∅)))
              (AuthContext.reach_login (eq e) e _ "a@b.com" "secret" eq_refl
                 (AuthContext.reach_start (eq e) ∅)))
    as (H1 & _ & H3 & _).
  split; [exact H1|]. exact (H3 "tok123" eq_refl).
Defined.

(** *** Round trip through the durable slot *)

(** Setting the credential: lines 44-45 of [login], the only place where
    the code stores one. *)
Definition Session_set (c : string) : M unit :=
  setItem "token" (VStr c);;
  setToken (VStr c).

(** A successful login is the request, [Session_set] of the token it
    got, and the navigation. *)
Lemma login_sets_credential (e : Env) (w : World) (email password t : string) :
  answers_token e email password t ->
  snd (AuthContext.login email password e w)
  = push "/dashboard"
      (snd (Session_set t e (log_request (login_request e email password) w))).
Proof.
  intros Hans. rewrite (login_success_world e w email password t Hans).
  reflexivity.
Qed.

(** The round trip as the specification words it, for every string. *)
Definition round_trip_claim : Prop :=
  forall (e : Env) (w : World) (c : string),
    token (AuthContext.restart e (snd (Session_set c e w))) = VStr c.

(** C8, as stated, fails: the empty string is written to the slot, but
    the mount effect only restores a truthy value ([if (saved)]), so after
    the restart the credential is [null]. *)
Lemma round_trip_claim_fails : ~ round_trip_claim.
Proof.
  intros H.
  specialize (H (stub ∅ 200 VNull) (AuthContext.start ∅) "").
  vm_compute in H. discriminate.
Qed.

(** C8, amended: for every non-empty credential string [c], setting [c]
    and restarting (a fresh state cell, the same [localStorage], the mount
    effect run again) yields a state whose credential is [c]; the slot
    itself holds [c] after the restart. *)
Theorem round_trip (e : Env) (w : World) (c : string) :
  c <> "" ->
  let w' := AuthContext.restart e (snd (Session_set c e w)) in
  token w' = VStr c /\
  localStorage w' !! "token" = Some c /\
  AuthContext.isAuthenticated (AuthContext.AuthProvider w') = true.
Proof.
  intros Hc. unfold AuthContext.restart, AuthContext.start, Session_set. run.
  rewrite lookup_insert_eq. cbn [truthy to_string].
  apply String.eqb_neq in Hc. rewrite Hc. cbn.
  rewrite lookup_insert_eq, Hc. repeat split.
Qed.

Lemma round_trip_witness :
  let w' := AuthContext.restart (stub ∅ 200 VNull)
              (snd (Session_set "tok123" (stub ∅ 200 VNull) (AuthContext.start ∅))) in
  token w' = VStr "tok123" /\
  localStorage w' !! "token" = Some "tok123" /\
  AuthContext.isAuthenticated (AuthContext.AuthProvider w') = true.
Proof.
  apply (round_trip (stub ∅ 200 VNull) (AuthContext.start ∅) "tok123").
  discriminate.
Defined.

(** *** The base URL *)

Lemma api_base_configured (e : Env) (s : string) :
  process_env e !! "NEXT_PUBLIC_API_BASE_URL" = Some s -> s <> "" ->
  api_base e = s.
Proof.
  intros Hs Hne. unfold api_base, or_else. rewrite Hs. cbn.
  apply String.eqb_neq in Hne. rewrite Hne. reflexivity.
Qed.

Lemma api_base_default (e : Env) :
  process_env e !! "NEXT_PUBLIC_API_BASE_URL" = None ->
  api_base e = "http://127.0.0.1:8000".
Proof. intros Hs. unfold api_base. rewrite Hs. reflexivity. Qed.

(** The calls of [lib/api.ts] all go to [api_base]. *)
Lemma api_requests_on_base (e : Env) (w : World) (path : string)
      (payload : list (string * value)) (options : Api.Options) (tok : value) :
  map url (fetched (snd (Api.post path payload options e w)))
  = (api_base e +:+ path) :: map url (fetched w) /\
  map url (fetched (snd (Api2.post path payload options e w)))
  = (api_base e +:+ path) :: map url (fetched w) /\
  map url (fetched (snd (Api.get path tok e w)))
  = (api_base e +:+ path) :: map url (fetched w).
Proof.
  rewrite post_world, post2_world. repeat split.
  run. fold (api_base e).
  destruct (network e _) as [r|]; [|reflexivity].
  destruct (ok r); run; [|reflexivity].
  destruct (json r); reflexivity.
Qed.

Lemma admin_effect_fetches (e : Env) (w : World) (tok : value) :
  truthy tok = true ->
  map url (fetched (snd (Pages.AdminPage_effect tok e w)))
  = "http://127.0.0.1:8000/admin/users/pending" :: map url (fetched w).
Proof.
  intros Htok. unfold Pages.AdminPage_effect. rewrite Htok. run.
  destruct (network e _) as [r|]; [|reflexivity].
  destruct (json r); reflexivity.
Qed.

(** C9 on the code: with [NEXT_PUBLIC_API_BASE_URL] set to
    ["https://api.example.com"] and nothing else, the calls of
    [lib/api.ts] go to that base, but [AuthContext.login] reads another
    variable, has no default and requests ["undefined/login"], and the
    effect of [AdminPage] requests the literal
    ["http://127.0.0.1:8000/admin/users/pending"]. *)
Theorem requests_off_base (net : Request -> option Response) :
  let e := {| process_env := {[ "NEXT_PUBLIC_API_BASE_URL" := "https://api.example.com" ]};
              network := net |} in
  let w := AuthContext.start ∅ in
  api_base e = "https://api.example.com" /\
  map url (fetched (snd (Api.login "a@b.com" "secret" e w)))
  = ["https://api.example.com/auth/login"] /\
  map url (fetched (snd (AuthContext.login "a@b.com" "secret" e w)))
  = ["undefined/login"] /\
  map url (fetched (snd (Pages.AdminPage_effect (VStr "tok123") e w)))
  = ["http://127.0.0.1:8000/admin/users/pending"].
Proof.
  cbv zeta. split; [reflexivity|].
  rewrite api_login_fetches, login_fetches, admin_effect_fetches by reflexivity.
  repeat split.
Qed.

(** *** [useAuth] *)

(** C10: outside every [AuthProvider], [useAuth] throws [Error] with the
    message ["useAuth must be used inside AuthProvider"]; under one, it
    returns the context object of the nearest provider. *)
Theorem useAuth_guard :
  AuthContext.useAuth [] = Throw (Error "useAuth must be used inside AuthProvider") /\
  forall (w : World) (outer : list World),
    AuthContext.useAuth (w :: outer) = Normal (AuthContext.AuthProvider w).
Proof. split; [reflexivity|]. intros w outer. reflexivity. Qed.

(** ** Further properties of the session *)

(** *** [logout] *)

(** [logout] always completes; afterwards there is no session, the
    ["token"] slot is gone, every other slot of [localStorage] is as it
    was, ["/login"] has been pushed once and nothing was fetched. *)
Theorem logout_clears (e : Env) (w : World) :
  let w' := snd (AuthContext.logout e w) in
  fst (AuthContext.logout e w) = Normal tt /\
  token w' = VNull /\
  AuthContext.isAuthenticated (AuthContext.AuthProvider w') = false /\
  localStorage w' !! "token" = None /\
  (forall key, key <> "token" -> localStorage w' !! key = localStorage w !! key) /\
  pushed w' = "/login" :: pushed w /\
  fetched w' = fetched w.
Proof.
  run. repeat split.
  - apply lookup_delete_eq.
  - intros key Hkey. apply lookup_delete_ne. congruence.
Qed.

(** A second [logout] succeeds as well and leaves the credential and the
    whole of [localStorage] as the first one left them; only the
    navigation is repeated. *)
Theorem logout_idempotent (e : Env) (w : World) :
  let w1 := snd (AuthContext.logout e w) in
  let w2 := snd (AuthContext.logout e w1) in
  fst (AuthContext.logout e w1) = Normal tt /\
  token w2 = token w1 /\
  localStorage w2 = localStorage w1 /\
  fetched w2 = fetched w1 /\
  pushed w2 = "/login" :: pushed w1.
Proof.
  run. repeat split. apply delete_id, lookup_delete_eq.
Qed.

(** No restart brings back a session that was logged out. *)
Theorem logout_survives_restart (e : Env) (w : World) :
  let w' := AuthContext.restart e (snd (AuthContext.logout e w)) in
  token w' = VNull /\
  AuthContext.isAuthenticated (AuthContext.AuthProvider w') = false /\
  localStorage w' !! "token" = None.
Proof.
  unfold AuthContext.restart, AuthContext.start. run.
  rewrite lookup_delete_eq. cbn. repeat split. apply lookup_delete_eq.
Qed.

(** *** The mount effect *)

(** Restoring the session is local: the effect completes, leaves
    [localStorage] and the navigation alone and fetches nothing; running
    it again changes nothing more. *)
Theorem mount_effect_local (e : Env) (w : World) :
  let w' := snd (AuthContext.mount_effect e w) in
  fst (AuthContext.mount_effect e w) = Normal tt /\
  localStorage w' = localStorage w /\
  pushed w' = pushed w /\
  fetched w' = fetched w /\
  snd (AuthContext.mount_effect e w') = w'.
Proof.
  run. destruct (localStorage w !! "token") as [s|] eqn:Hs; cbn [truthy].
  - destruct (negb (String.eqb s "")) eqn:Hne; cbn.
    + rewrite Hs. cbn. rewrite Hne. repeat split.
    + rewrite Hs. cbn. rewrite Hne. repeat split.
  - rewrite Hs. repeat split.
Qed.

(** A non-empty stored credential is taken over as it is, with no
    request to validate it. *)
Theorem mount_effect_restores (e : Env) (w : World) (s : string) :
  localStorage w !! "token" = Some s ->
  s <> "" ->
  let w' := snd (AuthContext.mount_effect e w) in
  token w' = VStr s /\
  AuthContext.isAuthenticated (AuthContext.AuthProvider w') = true /\
  fetched w' = fetched w.
Proof.
  intros Hs Hne. run. rewrite Hs. cbn [truthy].
  apply String.eqb_neq in Hne. rewrite Hne. cbn. rewrite Hne. repeat split.
Qed.

Lemma mount_effect_restores_witness :
  let w := AuthContext.start {[ "token" := "tok123" ]} in
  let w' := snd (AuthContext.mount_effect (stub ∅ 200 VNull) w) in
  token w' = VStr "tok123" /\
  AuthContext.isAuthenticated (AuthContext.AuthProvider w') = true /\
  fetched w' = [].
Proof.
  apply (mount_effect_restores (stub ∅ 200 VNull)
           (AuthContext.start {[ "token" := "tok123" ]}) "tok123").
  - reflexivity.
  - discriminate.
Defined.

(** When the slot is missing or empty the effect changes nothing, so a
    credential already in the cell stays. *)
Theorem mount_effect_nothing_stored (e : Env) (w : World) :
  localStorage w !! "token" = None \/ localStorage w !! "token" = Some "" ->
  snd (AuthContext.mount_effect e w) = w.
Proof.
  intros [Hs|Hs]; run; rewrite Hs; reflexivity.
Qed.

Lemma mount_effect_nothing_stored_witness :
  snd (AuthContext.mount_effect (stub ∅ 200 VNull)
         (AuthContext.start {[ "token" := "" ]}))
  = AuthContext.start {[ "token" := "" ]}.
Proof.
  apply (mount_effect_nothing_stored (stub ∅ 200 VNull)
           (AuthContext.start {[ "token" := "" ]})).
  right. reflexivity.
Defined.

(** *** [login], read backwards *)

(** Whenever [login] rejects, for whatever reason (no response, a
    non-success status, a body that is not JSON, a body that is [null]),
    the credential, [localStorage] and the navigation are untouched and
    exactly one request has been made. *)
Theorem login_rejection_keeps_session (e : Env) (w : World)
        (email password : string) (x : exn) :
  fst (AuthContext.login email password e w) = Throw x ->
  let w' := snd (AuthContext.login email password e w) in
  token w' = token w /\
  localStorage w' = localStorage w /\
  pushed w' = pushed w /\
  fetched w' = login_request e email password :: fetched w.
Proof.
  run. fold (login_request e email password).
  destruct (network e (login_request e email password)) as [r|];
    [|intros _; repeat split].
  destruct (ok r); run.
  - destruct (json r) as [data|]; run; [|intros _; repeat split].
    destruct (get_prop data "access_token");
      [discriminate|intros _; repeat split].
  - destruct (json r) as [err|]; run; [|intros _; repeat split].
    destruct (get_prop err "detail"); intros _; repeat split.
Qed.

(** The remote end that never answers. *)
Definition offline (env : gmap string string) : Env :=
  {| process_env := env; network := fun _ => None |}.

Lemma login_rejection_keeps_session_witness :
  let w := AuthContext.start {[ "token" := "old" ]} in
  let w' := snd (AuthContext.login "a@b.com" "secret" (offline ∅) w) in
  token w' = token w /\
  localStorage w' = localStorage w /\
  pushed w' = pushed w /\
  fetched w' = login_request (offline ∅) "a@b.com" "secret" :: fetched w.
Proof.
  apply (login_rejection_keeps_session (offline ∅)
           (AuthContext.start {[ "token" := "old" ]}) "a@b.com" "secret"
           NetworkError).
  reflexivity.
Defined.

(** [login] completes only on a success status with a JSON body that is
    not [null]; the cell then holds the body's [access_token] as it came,
    the slot holds it as a string, and ["/dashboard"] was pushed once. *)
Theorem login_completes_only_on_success (e : Env) (w : World)
        (email password : string) :
  fst (AuthContext.login email password e w) = Normal tt ->
  let w' := snd (AuthContext.login email password e w) in
  exists r data v,
    network e (login_request e email password) = Some r /\
    ok r = true /\
    json r = Some data /\
    get_prop data "access_token" = Normal v /\
    token w' = v /\
    localStorage w' = <["token" := to_string v]> (localStorage w) /\
    pushed w' = "/dashboard" :: pushed w.
Proof.
  run. fold (login_request e email password).
  destruct (network e (login_request e email password)) as [r|] eqn:Hnet;
    [|discriminate].
  destruct (ok r) eqn:Hok; run.
  - destruct (json r) as [data|] eqn:Hjson; run; [|discriminate].
    destruct (get_prop data "access_token") as [v|] eqn:Hv; [|discriminate].
    intros _. exists r, data, v. repeat split; assumption.
  - destruct (json r) as [err|]; run; [|discriminate].
    destruct (get_prop err "detail"); discriminate.
Qed.

Lemma login_completes_only_on_success_witness :
  let e := stub ∅ 200 (VObj [("access_token", VStr "tok123")]) in
  exists r data v,
    network e (login_request e "a@b.com" "secret") = Some r /\
    ok r = true /\
    json r = Some data /\
    get_prop data "access_token" = Normal v /\
    token (snd (AuthContext.login "a@b.com" "secret" e (AuthContext.start ∅))) = v /\
    localStorage (snd (AuthContext.login "a@b.com" "secret" e (AuthContext.start ∅)))
    = <["token" := to_string v]> (localStorage (AuthContext.start ∅)) /\
    pushed (snd (AuthContext.login "a@b.com" "secret" e (AuthContext.start ∅)))
    = "/dashboard" :: pushed (AuthContext.start ∅).
Proof.
  apply (login_completes_only_on_success
           (stub ∅ 200 (VObj [("access_token", VStr "tok123")]))
           (AuthContext.start ∅) "a@b.com" "secret").
  reflexivity.
Defined.

(** A success answer whose JSON object has no [access_token] still
    completes the login: the slot receives the string ["undefined"], the
    cell holds [undefined], so there is no session although
    ["/dashboard"] is pushed; after a restart the stored text is taken for
    a credential and the session is authenticated. *)
Theorem login_without_token_field (e : Env) (w : World)
        (email password : string) (r : Response) (fields : list (string * value)) :
  network e (login_request e email password) = Some r ->
  ok r = true ->
  json r = Some (VObj fields) ->
  find (fun kv => String.eqb (fst kv) "access_token") fields = None ->
  let w' := snd (AuthContext.login email password e w) in
  fst (AuthContext.login email password e w) = Normal tt /\
  token w' = VUndefined /\
  AuthContext.isAuthenticated (AuthContext.AuthProvider w') = false /\
  localStorage w' !! "token" = Some "undefined" /\
  pushed w' = "/dashboard" :: pushed w /\
  token (AuthContext.restart e w') = VStr "undefined" /\
  AuthContext.isAuthenticated (AuthContext.AuthProvider (AuthContext.restart e w'))
  = true.
Proof.
  intros Hnet Hok Hjson Hfind.
  unfold AuthContext.restart, AuthContext.start.
  run. fold (login_request e email password).
  rewrite Hnet, Hok. run. rewrite Hjson. run.
  unfold get_prop. rewrite Hfind. cbn.
  rewrite !lookup_insert_eq. cbn. repeat split.
Qed.

Lemma login_without_token_field_witness :
  let e := stub ∅ 200 (VObj [("token_type", VStr "bearer")]) in
  let w' := snd (AuthContext.login "a@b.com" "secret" e (AuthContext.start ∅)) in
  fst (AuthContext.login "a@b.com" "secret" e (AuthContext.start ∅)) = Normal tt /\
  token w' = VUndefined /\
  AuthContext.isAuthenticated (AuthContext.AuthProvider w') = false /\
  localStorage w' !! "token" = Some "undefined" /\
  pushed w' = "/dashboard" :: pushed (AuthContext.start ∅) /\
  token (AuthContext.restart e w') = VStr "undefined" /\
  AuthContext.isAuthenticated (AuthContext.AuthProvider (AuthContext.restart e w'))
  = true.
Proof.
  apply (login_without_token_field
           (stub ∅ 200 (VObj [("token_type", VStr "bearer")]))
           (AuthContext.start ∅) "a@b.com" "secret"
           {| status := 200;
              text := default "" (JSON_stringify (VObj [("token_type", VStr "bearer")]));
              json := Some (VObj [("token_type", VStr "bearer")]) |}
           [("token_type", VStr "bearer")]); reflexivity.
Defined.




(** *** Invariants of a session *)

(** Whenever a session is authenticated, the durable slot holds its
    credential (as a string), whatever sequence of mounts, logins and
    logouts led there and whatever the remote end answered at each step:
    the cell never runs ahead of the store.  Hence such a session, when
    its credential is a string, comes back from a restart with the same
    credential and the same store. *)
Theorem authenticated_session_is_stored (allowed : Env -> Prop) (w : World) :
  AuthContext.reachable allowed w ->
  AuthContext.isAuthenticated (AuthContext.AuthProvider w) = true ->
  localStorage w !! "token" = Some (to_string (token w)) /\
  (forall e s, token w = VStr s ->
               token (AuthContext.restart e w) = VStr s /\
               localStorage (AuthContext.restart e w) = localStorage w).
Proof.
  cbn [AuthContext.isAuthenticated AuthContext.AuthProvider].
  intros Hw Hauth.
  assert (Hslot : localStorage w !! "token" = Some (to_string (token w))).
  { revert Hauth.
    induction Hw as [durable|e w He Hw IH|e w email password He Hw IH|e w He Hw IH].
    - discriminate.
    - run. destruct (localStorage w !! "token") as [s|] eqn:Hs; cbn [truthy].
      + destruct (negb (String.eqb s "")); cbn [token localStorage to_string].
        * intros _. exact Hs.
        * intros Ht. rewrite Hs. exact (IH Ht).
      + intros Ht. rewrite Hs. exact (IH Ht).
    - run. fold (login_request e email password).
      destruct (network e (login_request e email password)) as [r|]; [|exact IH].
      destruct (ok r); run.
      + destruct (json r) as [data|]; run; [|exact IH].
        destruct (get_prop data "access_token") as [v|]; [|exact IH].
        cbn. intros _. apply lookup_insert_eq.
      + destruct (json r) as [err|]; run; [|exact IH].
        destruct (get_prop err "detail"); exact IH.
    - discriminate. }
  split; [exact Hslot|].
  intros e s Hs. rewrite Hs in Hslot, Hauth. cbn in Hslot, Hauth.
  unfold AuthContext.restart, AuthContext.start. run.
  rewrite Hslot. cbn [truthy]. rewrite Hauth. repeat split.
Qed.

(** A session in which the remote end first refuses a login and then
    accepts the very same request. *)
Definition refused_then_accepted : World :=
  snd (AuthContext.login "a@b.com" "secret"
         (stub ∅ 200 (VObj [("access_token", VStr "tok123")]))
         (snd (AuthContext.login "a@b.com" "secret"
                 (stub ∅ 401 (VObj [("detail", VStr "Invalid credentials")]))
                 (AuthContext.start ∅)))).

Lemma refused_then_accepted_reachable :
  AuthContext.reachable (fun _ => True) refused_then_accepted.
Proof.
  apply AuthContext.reach_login; [exact I|].
  apply AuthContext.reach_login; [exact I|].
  apply AuthContext.reach_start.
Defined.

Lemma authenticated_session_is_stored_witness :
  let w := refused_then_accepted in
  localStorage w !! "token" = Some (to_string (token w)) /\
  (forall e s, token w = VStr s ->
               token (AuthContext.restart e w) = VStr s /\
               localStorage (AuthContext.restart e w) = localStorage w).
Proof.
  apply (authenticated_session_is_stored (fun _ => True) refused_then_accepted).
  - exact refused_then_accepted_reachable.
  - reflexivity.
Defined.



(** ** Further properties of the transport *)

(** The request [get] builds (lines 38-41). *)
Definition get_request (e : Env) (path : string) (tok : value) : Request :=
  {| url := api_base e +:+ path;
     method := "GET";
     headers := if truthy tok
                then {[ "Authorization" := "Bearer " +:+ to_string tok ]}
                else ∅;
     body := None |}.

(** [get], in one equation. *)
Lemma get_world (e : Env) (w : World) (path : string) (tok : value) :
  Api.get path tok e w
  = (match network e (get_request e path tok) with
     | None => Throw NetworkError
     | Some r =>
         if ok r then
           match json r with Some v => Normal v | None => Throw SyntaxError end
         else Throw (Error (text r))
     end,
     log_request (get_request e path tok) w).
Proof.
  run. fold (api_base e). fold (get_request e path tok).
  fold (log_request (get_request e path tok) w).
  destruct (network e (get_request e path tok)) as [r|]; [|reflexivity].
  destruct (ok r); run; [|reflexivity].
  destruct (json r); reflexivity.
Qed.

(** The base is never empty: a variable set to the empty string counts
    as unset and gives the local default, like a missing one. *)
Theorem api_base_never_empty (e : Env) :
  api_base e <> "" /\
  (process_env e !! "NEXT_PUBLIC_API_BASE_URL" = Some "" ->
   api_base e = "http://127.0.0.1:8000") /\
  (forall s, process_env e !! "NEXT_PUBLIC_API_BASE_URL" = Some s -> s <> "" ->
             api_base e = s).
Proof.
  unfold api_base, or_else.
  split; [|split].
  - destruct (process_env e !! "NEXT_PUBLIC_API_BASE_URL") as [s|]; cbn;
      [|discriminate].
    destruct (String.eqb s "") eqn:Hs; cbn; [discriminate|].
    apply String.eqb_neq, Hs.
  - intros ->. reflexivity.
  - intros s -> Hs. cbn. apply String.eqb_neq in Hs. rewrite Hs. reflexivity.
Qed.

(** [post] (either revision) and [get] make exactly one request and
    leave the session alone: they read no credential but the one passed
    in, store nothing and navigate nowhere. *)
Theorem transport_keeps_session (e : Env) (w : World) (path : string)
        (payload : list (string * value)) (options : Api.Options) (tok : value) :
  let after_post := snd (Api.post path payload options e w) in
  let after_post2 := snd (Api2.post path payload options e w) in
  let after_get := snd (Api.get path tok e w) in
  (localStorage after_post = localStorage w /\ token after_post = token w /\
   pushed after_post = pushed w /\ length (fetched after_post) = S (length (fetched w))) /\
  (localStorage after_post2 = localStorage w /\ token after_post2 = token w /\
   pushed after_post2 = pushed w /\ length (fetched after_post2) = S (length (fetched w))) /\
  (localStorage after_get = localStorage w /\ token after_get = token w /\
   pushed after_get = pushed w /\ length (fetched after_get) = S (length (fetched w))).
Proof.
  cbv zeta. rewrite post_world, post2_world, get_world. repeat split.
Qed.

(** A credential is put on the wire only when it is truthy: [post] and
    [get] then send [Authorization: Bearer] followed by it, and send no
    [Authorization] header at all for a missing, [null] or empty one. *)
Theorem bearer_only_when_truthy (e : Env) (path : string)
        (payload : list (string * value)) (options : Api.Options) (tok : value) :
  headers (post_request e path payload options) !! "Authorization"
  = (if truthy (Api.opt_token options)
     then Some ("Bearer " +:+ to_string (Api.opt_token options)) else None) /\
  headers (get_request e path tok) !! "Authorization"
  = (if truthy tok then Some ("Bearer " +:+ to_string tok) else None) /\
  (forall form,
      Forall (fun t => headers (post_request e path payload
                                  {| Api.form := form; Api.opt_token := t |})
                       !! "Authorization" = None)
             [VUndefined; VNull; VStr ""]).
Proof.
  split; [|split].
  - unfold post_request, Api.post_headers. cbn [headers].
    destruct (truthy (Api.opt_token options)).
    + apply lookup_insert_eq.
    + apply lookup_singleton_ne. discriminate.
  - unfold get_request. cbn [headers]. destruct (truthy tok).
    + apply lookup_singleton_eq.
    + apply lookup_empty.
  - intros form. repeat constructor;
      unfold post_request, Api.post_headers; cbn;
      apply lookup_singleton_ne; discriminate.
Qed.

(** On a success status or without any response the two revisions of
    [post] do the same. *)
Theorem post_revisions_agree (e : Env) (w : World) (path : string)
        (payload : list (string * value)) (options : Api.Options) :
  (forall r, network e (post_request e path payload options) = Some r ->
             ok r = true) ->
  Api.post path payload options e w = Api2.post path payload options e w.
Proof.
  intros Hok. rewrite post_world, post2_world.
  destruct (network e (post_request e path payload options)) as [r|];
    [|reflexivity].
  rewrite (Hok r eq_refl). reflexivity.
Qed.

Lemma post_revisions_agree_witness :
  Api.post "/auth/register" [("username", VStr "a@b.com")]
           {| Api.form := true; Api.opt_token := VUndefined |}
           (stub ∅ 200 (VObj [("access_token", VStr "tok123")])) (AuthContext.start ∅)
  = Api2.post "/auth/register" [("username", VStr "a@b.com")]
              {| Api.form := true; Api.opt_token := VUndefined |}
              (stub ∅ 200 (VObj [("access_token", VStr "tok123")])) (AuthContext.start ∅).
Proof.
  apply (post_revisions_agree
           (stub ∅ 200 (VObj [("access_token", VStr "tok123")]))
           (AuthContext.start ∅) "/auth/register" [("username", VStr "a@b.com")]
           {| Api.form := true; Api.opt_token := VUndefined |}).
  intros r Hr. injection Hr as <-. reflexivity.
Defined.

(** What the first revision of [post] returns is always the parsed body
    of a response with a success status: an error payload never comes back
    as a result. *)
Theorem post_returns_success_body (e : Env) (w : World) (path : string)
        (payload : list (string * value)) (options : Api.Options) (v : value) :
  fst (Api.post path payload options e w) = Normal v ->
  exists r,
    network e (post_request e path payload options) = Some r /\
    ok r = true /\
    json r = Some v.
Proof.
  rewrite post_world. cbn [fst].
  destruct (network e (post_request e path payload options)) as [r|];
    [|discriminate].
  destruct (ok r) eqn:Hok; [|discriminate].
  destruct (json r) as [v'|] eqn:Hjson; [|discriminate].
  intros [= ->]. exists r. repeat split; assumption.
Qed.

Lemma post_returns_success_body_witness :
  exists r,
    network (stub ∅ 200 (VObj [("access_token", VStr "tok123")]))
      (post_request (stub ∅ 200 (VObj [("access_token", VStr "tok123")]))
         "/auth/login" [] Api.no_options) = Some r /\
    ok r = true /\
    json r = Some (VObj [("access_token", VStr "tok123")]).
Proof.
  apply (post_returns_success_body
           (stub ∅ 200 (VObj [("access_token", VStr "tok123")]))
           (AuthContext.start ∅) "/auth/login" [] Api.no_options
           (VObj [("access_token", VStr "tok123")])).
  reflexivity.
Defined.

(** [get] sends a body-less GET; it returns only the parsed body of a
    success response, and on any other status throws [Error] with the raw
    body text. *)
Theorem get_outcomes (e : Env) (w : World) (path : string) (tok : value)
        (r : Response) :
  network e (get_request e path tok) = Some r ->
  fetched (snd (Api.get path tok e w)) = get_request e path tok :: fetched w /\
  body (get_request e path tok) = None /\
  (ok r = false -> fst (Api.get path tok e w) = Throw (Error (text r))) /\
  (forall v, fst (Api.get path tok e w) = Normal v ->
             ok r = true /\ json r = Some v).
Proof.
  intros Hnet. rewrite get_world, Hnet. cbn [fst snd log_request fetched].
  repeat split.
  - intros ->. reflexivity.
  - destruct (ok r); [reflexivity|discriminate].
  - destruct (ok r); [|discriminate].
    destruct (json r); [congruence|discriminate].
Qed.

Lemma get_outcomes_witness :
  fst (Api.getMe "tok123" (stub ∅ 403 (VObj [("detail", VStr "Forbidden")]))
         (AuthContext.start ∅))
  = Throw (Error (default "" (JSON_stringify (VObj [("detail", VStr "Forbidden")])))).
Proof.
  destruct (get_outcomes (stub ∅ 403 (VObj [("detail", VStr "Forbidden")]))
              (AuthContext.start ∅) "/users/me" (VStr "tok123") _ eq_refl)
    as (_ & _ & Herr & _).
  exact (Herr eq_refl).
Defined.

(** The [login] of [lib/api.ts] hands back whatever the success body has
    under [access_token]: the token, [undefined] when the member is
    missing, and a [TypeError] when the body is [null]. *)
Theorem api_login_result (e : Env) (w : World) (username password : string)
        (r : Response) (data : value) :
  network e (post_request e "/auth/login"
               [("grant_type", VStr "password"); ("username", VStr username);
                ("password", VStr password)]
               {| Api.form := true; Api.opt_token := VUndefined |}) = Some r ->
  ok r = true ->
  json r = Some data ->
  fst (Api.login username password e w) = get_prop data "access_token" /\
  (data = VNull -> fst (Api.login username password e w) = Throw TypeError) /\
  (data = VObj [] -> fst (Api.login username password e w) = Normal VUndefined).
Proof.
  intros Hnet Hok Hjson.
  assert (H : fst (Api.login username password e w) = get_prop data "access_token").
  { unfold Api.login, bind. rewrite post_world, Hnet, Hok, Hjson. reflexivity. }
  rewrite H. repeat split; intros ->; reflexivity.
Qed.

Lemma api_login_result_witness :
  fst (Api.login "a@b.com" "secret"
         (stub ∅ 200 (VObj [("access_token", VStr "tok123")])) (AuthContext.start ∅))
  = Normal (VStr "tok123").
Proof.
  destruct (api_login_result
              (stub ∅ 200 (VObj [("access_token", VStr "tok123")]))
              (AuthContext.start ∅) "a@b.com" "secret" _
              (VObj [("access_token", VStr "tok123")]) eq_refl eq_refl eq_refl)
    as (H & _).
  exact H.
Defined.

(** ** Further properties of the encodings *)

(** *** Reading a form body back *)

Definition hex_value (c : ascii) : option N :=
  let n := N_of_ascii c in
  if ((48 <=? n) && (n <=? 57))%N then Some (n - 48)%N
  else if ((65 <=? n) && (n <=? 70))%N then Some (n - 55)%N
  else if ((97 <=? n) && (n <=? 102))%N then Some (n - 87)%N
  else None.

(** Percent-decoding of a serialized name or value: [+] is a space,
    [%XY] the byte with these two digits; a [%] without two digits is
    refused. *)
Fixpoint form_decode (s : string) : option string :=
  match s with
  | EmptyString => Some ""
  | String c rest =>
      if (N_of_ascii c =? 43)%N then
        option_map (String " "%char) (form_decode rest)
      else if (N_of_ascii c =? 37)%N then
        match rest with
        | String h (String l rest') =>
            match hex_value h, hex_value l with
            | Some a, Some b =>
                option_map (String (ascii_of_N (16 * a + b))) (form_decode rest')
            | _, _ => None
            end
        | _ => None
        end
      else option_map (String c) (form_decode rest)
  end.

(** The pieces of [s] between the occurrences of [sep]. *)
Fixpoint split_on (sep : ascii) (s : string) : list string :=
  match s with
  | EmptyString => [""]
  | String c rest =>
      if Ascii.eqb c sep then "" :: split_on sep rest
      else match split_on sep rest with
           | [] => [String c ""]
           | piece :: pieces => String c piece :: pieces
           end
  end.

(** [s] up to its first [sep], and what follows it. *)
Fixpoint split_first (sep : ascii) (s : string) : string * option string :=
  match s with
  | EmptyString => ("", None)
  | String c rest =>
      if Ascii.eqb c sep then ("", Some rest)
      else let (before, after) := split_first sep rest in (String c before, after)
  end.

Definition form_decode_pair (piece : string) : option (string * string) :=
  let (name, after) := split_first "="%char piece in
  match form_decode name, form_decode (default "" after) with
  | Some n, Some v => Some (n, v)
  | _, _ => None
  end.

Fixpoint form_decode_pairs (pieces : list string) : option (list (string * string)) :=
  match pieces with
  | [] => Some []
  | piece :: rest =>
      match form_decode_pair piece, form_decode_pairs rest with
      | Some kv, Some kvs => Some (kv :: kvs)
      | _, _ => None
      end
  end.

(** Reading a form body: the pairs between [&], each split at its first
    [=]. *)
Definition form_parse (s : string) : option (list (string * string)) :=
  if String.eqb s "" then Some []
  else form_decode_pairs (split_on "&"%char s).

Lemma form_decode_char (c : ascii) (t : string) :
  form_decode (form_encode_char c +:+ t) = option_map (String c) (form_decode t).
Proof. destruct c as [[] [] [] [] [] [] [] []]; reflexivity. Qed.

Lemma form_decode_encode (s : string) : form_decode (form_encode s) = Some s.
Proof.
  induction s as [|c s IH]; [reflexivity|].
  cbn [form_encode]. rewrite form_decode_char, IH. reflexivity.
Qed.

(** Percent-encoding loses nothing: decoding gives the text back, so two
    different names or values never share an encoding. *)
Theorem form_encode_round_trip (s : string) :
  form_decode (form_encode s) = Some s /\
  (forall s', form_encode s = form_encode s' -> s = s').
Proof.
  split; [apply form_decode_encode|].
  intros s' Heq.
  assert (H : Some s = Some s')
    by (rewrite <- (form_decode_encode s), Heq; apply form_decode_encode).
  congruence.
Qed.

Definition is_not (sep : ascii) (c : ascii) : bool := negb (Ascii.eqb c sep).

Lemma form_byte_not_sep (c : ascii) :
  form_byte c = true -> is_not "&" c = true /\ is_not "=" c = true.
Proof. destruct c as [[] [] [] [] [] [] [] []]; cbn; intuition discriminate. Qed.

Lemma form_encode_no_sep (s : string) :
  string_forall (is_not "&") (form_encode s) = true /\
  string_forall (is_not "=") (form_encode s) = true.
Proof.
  split; apply (string_forall_weaken form_byte); try apply form_encode_bytes;
    intros c Hc; apply (form_byte_not_sep c Hc).
Qed.

Lemma split_on_clean (sep : ascii) (a : string) :
  string_forall (is_not sep) a = true -> split_on sep a = [a].
Proof.
  induction a as [|c a IH]; [reflexivity|].
  cbn [string_forall split_on]. unfold is_not at 1.
  intros [Hc Ha]%andb_true_iff. apply negb_true_iff in Hc.
  rewrite Hc, (IH Ha). reflexivity.
Qed.

Lemma split_on_app (sep : ascii) (a b : string) :
  string_forall (is_not sep) a = true ->
  split_on sep (a +:+ String sep b) = a :: split_on sep b.
Proof.
  induction a as [|c a IH]; intros Ha.
  - change ("" +:+ String sep b) with (String sep b).
    cbn [split_on]. rewrite Ascii.eqb_refl. reflexivity.
  - cbn [string_forall] in Ha. unfold is_not at 1 in Ha.
    apply andb_true_iff in Ha as [Hc Ha]. apply negb_true_iff in Hc.
    change (String c a +:+ String sep b) with (String c (a +:+ String sep b)).
    cbn [split_on]. rewrite Hc, (IH Ha). reflexivity.
Qed.

Lemma split_first_app (sep : ascii) (a b : string) :
  string_forall (is_not sep) a = true ->
  split_first sep (a +:+ String sep b) = (a, Some b).
Proof.
  induction a as [|c a IH]; intros Ha.
  - change ("" +:+ String sep b) with (String sep b).
    cbn [split_first]. rewrite Ascii.eqb_refl. reflexivity.
  - cbn [string_forall] in Ha. unfold is_not at 1 in Ha.
    apply andb_true_iff in Ha as [Hc Ha]. apply negb_true_iff in Hc.
    change (String c a +:+ String sep b) with (String c (a +:+ String sep b)).
    cbn [split_first]. rewrite Hc, (IH Ha). reflexivity.
Qed.

(** One serialized pair. *)
Definition form_pair (kv : string * value) : string :=
  form_encode (fst kv) +:+ "=" +:+ form_encode (to_string (snd kv)).

Lemma form_pair_clean (kv : string * value) :
  string_forall (is_not "&") (form_pair kv) = true.
Proof.
  unfold form_pair. rewrite !string_forall_app.
  rewrite (proj1 (form_encode_no_sep (fst kv))).
  rewrite (proj1 (form_encode_no_sep (to_string (snd kv)))). reflexivity.
Qed.

Lemma form_pair_not_empty (kv : string * value) (t : string) :
  String.eqb (form_pair kv) "" = false /\
  String.eqb (form_pair kv +:+ t) "" = false.
Proof.
  unfold form_pair. destruct (form_encode (fst kv)); split; reflexivity.
Qed.

Lemma form_decode_pair_pair (kv : string * value) :
  form_decode_pair (form_pair kv) = Some (fst kv, to_string (snd kv)).
Proof.
  unfold form_decode_pair, form_pair.
  change ("=" +:+ form_encode (to_string (snd kv)))
    with (String "="%char (form_encode (to_string (snd kv)))).
  rewrite split_first_app by apply form_encode_no_sep.
  cbn [default from_option id]. rewrite !form_decode_encode. reflexivity.
Qed.

Lemma split_on_pairs (kv : string * value) (fields : list (string * value)) :
  split_on "&" (String.concat "&" (map form_pair (kv :: fields)))
  = map form_pair (kv :: fields).
Proof.
  revert kv. induction fields as [|kv' fields IH]; intros kv.
  - cbn [map String.concat]. apply split_on_clean, form_pair_clean.
  - change (String.concat "&" (map form_pair (kv :: kv' :: fields)))
      with (form_pair kv +:+
            String "&"%char (String.concat "&" (map form_pair (kv' :: fields)))).
    rewrite split_on_app by apply form_pair_clean.
    rewrite IH. reflexivity.
Qed.

Lemma form_decode_pairs_pairs (fields : list (string * value)) :
  form_decode_pairs (map form_pair fields)
  = Some (map (fun kv => (fst kv, to_string (snd kv))) fields).
Proof.
  induction fields as [|kv fields IH]; [reflexivity|].
  cbn [map form_decode_pairs]. rewrite form_decode_pair_pair, IH. reflexivity.
Qed.

(** A form body determines its fields: reading it back gives the names
    and the values (as strings) in the order they were sent, so no name or
    value, whatever bytes it holds, can add, drop or merge fields. *)
Theorem form_body_round_trip (fields : list (string * value)) :
  form_parse (URLSearchParams_toString fields)
  = Some (map (fun kv => (fst kv, to_string (snd kv))) fields).
Proof.
  unfold form_parse.
  change (URLSearchParams_toString fields)
    with (String.concat "&" (map form_pair fields)).
  destruct fields as [|kv fields]; [reflexivity|].
  rewrite split_on_pairs, form_decode_pairs_pairs.
  destruct fields as [|kv' fields].
  - cbn [map String.concat].
    rewrite (proj1 (form_pair_not_empty kv "")). reflexivity.
  - change (String.concat "&" (map form_pair (kv :: kv' :: fields)))
      with (form_pair kv +:+
            String "&"%char (String.concat "&" (map form_pair (kv' :: fields)))).
    rewrite (proj2 (form_pair_not_empty kv _)). reflexivity.
Qed.

(** A field cannot smuggle in another one: the separators inside a value
    travel percent-encoded and come back as part of that value. *)
Example form_parse_separators :
  URLSearchParams_toString [("username", VStr "a@b.com"); ("password", VStr "p&admin=1")]
  = "username=a%40b.com&password=p%26admin%3D1" /\
  form_parse "username=a%40b.com&password=p%26admin%3D1"
  = Some [("username", "a@b.com"); ("password", "p&admin=1")].
Proof. split; reflexivity. Qed.

(** *** Reading a JSON string back *)

(** The inverse of [json_escape]: a raw quote or control byte is refused,
    a backslash must start one of the escapes the serializer writes. *)
Fixpoint json_unescape (s : string) : option string :=
  match s with
  | EmptyString => Some ""
  | String c rest =>
      if (N_of_ascii c =? 92)%N then
        match rest with
        | String d rest' =>
            let m := N_of_ascii d in
            if ((m =? 34) || (m =? 92))%N then
              option_map (String d) (json_unescape rest')
            else if (m =? 98)%N then option_map (String "008"%char) (json_unescape rest')
            else if (m =? 102)%N then option_map (String "012"%char) (json_unescape rest')
            else if (m =? 110)%N then option_map (String "010"%char) (json_unescape rest')
            else if (m =? 114)%N then option_map (String "013"%char) (json_unescape rest')
            else if (m =? 116)%N then option_map (String "009"%char) (json_unescape rest')
            else if (m =? 117)%N then
              match rest' with
              | String "0"%char (String "0"%char (String h (String l rest''))) =>
                  match hex_value h, hex_value l with
                  | Some a, Some b =>
                      option_map (String (ascii_of_N (16 * a + b)))
                                 (json_unescape rest'')
                  | _, _ => None
                  end
              | _ => None
              end
            else None
        | EmptyString => None
        end
      else if ((N_of_ascii c =? 34) || (N_of_ascii c <? 32))%N then None
      else option_map (String c) (json_unescape rest)
  end.

Lemma json_unescape_char (c : ascii) (t : string) :
  json_unescape (json_escape_char c +:+ t) = option_map (String c) (json_unescape t).
Proof. destruct c as [[] [] [] [] [] [] [] []]; reflexivity. Qed.

Lemma json_unescape_escape (s : string) : json_unescape (json_escape s) = Some s.
Proof.
  induction s as [|c s IH]; [reflexivity|].
  cbn [json_escape]. rewrite json_unescape_char, IH. reflexivity.
Qed.

(** The text between the quotes of a serialized string holds no raw
    quote and no control byte, and gives the string back when unescaped:
    a member of a JSON body ends where the serializer ended it, and
    different strings are written differently. *)
Theorem json_escape_round_trip (s : string) :
  json_unescape (json_escape s) = Some s /\
  (forall s', json_quote s = json_quote s' -> s = s').
Proof.
  split; [apply json_unescape_escape|].
  unfold json_quote. intros s' Heq. injection Heq as Heq.
  assert (H : forall a b, a +:+ dquote = b +:+ dquote -> a = b).
  { induction a as [|x a IHa]; intros [|y b] Hab.
    - reflexivity.
    - destruct b; discriminate.
    - destruct a; discriminate.
    - injection Hab as -> Hab. f_equal. apply IHa, Hab. }
  apply H in Heq.
  assert (Hs : Some s = Some s')
    by (rewrite <- (json_unescape_escape s), Heq; apply json_unescape_escape).
  congruence.
Qed.

(** ** The remaining views *)

Module Views.
Import JS Runtime AuthContext.

(** *** [components/Header.tsx] *)

(** What the header shows: the user block with its [Log out] button, or
    the [Sign In] and [Sign Up] buttons; a button is its [onClick]. *)
Inductive header_view : Type :=
| SignedIn (name email avatarUrl : string) (onLogout : M unit)
| SignedOut (onSignIn onSignUp : M unit).

Definition Header (providers : list World) : completion header_view :=
  match useAuth providers with
  | Throw x => Throw x
  | Normal ctx =>
      let isAuthenticated := isAuthenticated ctx in
      let logout := ctx_logout ctx in
      Normal
        (if isAuthenticated
         then SignedIn "Faisal Khan" "f.khann@gmail.com"
                "https://ui-avatars.com/api/?name=Faisal+Khan&background=0D8ABC&color=fff"
                logout
         else SignedOut (router_push "/login") (router_push "/auth"))
  end.

(** *** [app/admin/page.tsx] *)

Record User : Type := mkUser {
  id : number;
  email : string;
  is_active : bool;
  is_admin : bool;
}.

(** Lines 29-32, for either revision of [post].  [pending] is the list
    at the time the update of [setPending] runs, the value is the list it
    leaves; nothing is set when [post] throws. *)
Definition approve
           (post : string -> list (string * value) -> Api.Options -> M value)
           (token : value) (pending : list User) (uid : number) : M (list User) :=
  _ <- post ("/admin/approve/" +:+ number_to_string uid) []
            {| Api.form := false; Api.opt_token := token |};;
  ret (List.filter (fun u => negb (number_eqb (id u) uid)) pending).

(** Lines 34-56: the notice, the empty notice, or one row per pending
    user (the address and the [id] its [Approve] button passes on). *)
Inductive admin_view : Type :=
| PleaseLogIn
| NoPending
| PendingRows (rows : list (string * number)).

Definition AdminPage_view (token : value) (pending : list User) : admin_view :=
  if negb (truthy token) then PleaseLogIn
  else if (length pending =? 0)%nat then NoPending
  else PendingRows (map (fun user => (email user, id user)) pending).

(** *** [app/signup/page.tsx] *)

(** The page side of the browser: the world, what [alert] showed and what
    [console.error] got, latest first. *)
Record Screen : Type := mkScreen {
  world : World;
  alerts : list string;
  console : list exn;
}.

Definition UI (A : Type) : Type := Env -> Screen -> completion A * Screen.

Definition ui_ret {A} (a : A) : UI A := fun _ s => (Normal a, s).

Definition ui_bind {A B} (m : UI A) (k : A -> UI B) : UI B :=
  fun e s =>
    match m e s with
    | (Normal a, s') => k a e s'
    | (Throw x, s') => (Throw x, s')
    end.

(** [try { m } catch (err) { handler(err) }] *)
Definition try_catch {A} (m : UI A) (handler : exn -> UI A) : UI A :=
  fun e s =>
    match m e s with
    | (Normal a, s') => (Normal a, s')
    | (Throw x, s') => handler x e s'
    end.

(** A computation of the transport run from a page. *)
Definition in_world {A} (m : M A) : UI A :=
  fun e s =>
    let (c, w') := m e (world s) in
    (c, {| world := w'; alerts := alerts s; console := console s |}).

(** [alert(v)] *)
Definition alert (v : value) : UI unit :=
  fun _ s =>
    (Normal tt,
     {| world := world s; alerts := to_string v :: alerts s; console := console s |}).

(** [console.error(err)] *)
Definition console_error (x : exn) : UI unit :=
  fun _ s =>
    (Normal tt,
     {| world := world s; alerts := alerts s; console := x :: console s |}).

Declare Scope ui_scope.
Delimit Scope ui_scope with ui.
Notation "x <- m ;; k" := (ui_bind m (fun x => k))
  (at level 100, m at next level, right associativity) : ui_scope.
Notation "m ;; k" := (ui_bind m (fun _ => k))
  (at level 100, right associativity) : ui_scope.

(** Lines 11-29, for either revision of [post], after
    [e.preventDefault()]; [email] and [password] are the two state cells
    of the form. *)
Definition handleSubmit
           (post : string -> list (string * value) -> Api.Options -> M value)
           (email password : string) : UI unit :=
  (try_catch
     (r <- in_world (post "/auth/register"
                          [("username", VStr email); ("password", VStr password)]
                          {| Api.form := true; Api.opt_token := VUndefined |});;
      access_token <- in_world (lift (get_prop r "access_token"));;
      detail <- in_world (lift (get_prop r "detail"));;
      if truthy access_token
      then alert (VStr "Account created! You can now log in.")
      else alert (or_else detail (VStr "Signup failed")))
     (fun err =>
        console_error err;;
        alert (VStr "An error occurred during signup")))%ui.

End Views.

(** *** Guards along a session *)

(** The guarded pages follow the session as it changes: after a login
    that brought a non-empty token [DeepDivePage] and [ConsultPage] render
    and push nothing; after a logout from there they return [null] and
    push ["/login"]. *)
Theorem guard_follows_session (e : Env) (w : World) (email password t : string) :
  answers_token e email password t ->
  t <> "" ->
  let w1 := snd (AuthContext.login email password e w) in
  let w2 := snd (AuthContext.logout e w1) in
  Pages.evaluate Pages.DeepDivePage e w1 = (Normal (Pages.Markup "Deep Dive"), w1) /\
  Pages.evaluate Pages.ConsultPage e w1
  = (Normal (Pages.Markup "Consult AI Agent"), w1) /\
  Pages.evaluate Pages.DeepDivePage e w2 = (Normal Pages.Null, push "/login" w2) /\
  Pages.evaluate Pages.ConsultPage e w2 = (Normal Pages.Null, push "/login" w2).
Proof.
  intros Hans Ht. cbv zeta.
  rewrite (login_success_world e w email password t Hans).
  apply String.eqb_neq in Ht.
  unfold Pages.evaluate, Pages.DeepDivePage, Pages.ConsultPage,
    AuthContext.useAuth, AuthContext.useContext, AuthContext.AuthProvider.
  run. cbn. rewrite Ht. cbn. repeat split.
Qed.

Lemma guard_follows_session_witness :
  let e := stub ∅ 200 (VObj [("access_token", VStr "tok123")]) in
  let w1 := snd (AuthContext.login "a@b.com" "secret" e (AuthContext.start ∅)) in
  let w2 := snd (AuthContext.logout e w1) in
  Pages.evaluate Pages.DeepDivePage e w1 = (Normal (Pages.Markup "Deep Dive"), w1) /\
  Pages.evaluate Pages.ConsultPage e w1
  = (Normal (Pages.Markup "Consult AI Agent"), w1) /\
  Pages.evaluate Pages.DeepDivePage e w2 = (Normal Pages.Null, push "/login" w2) /\
  Pages.evaluate Pages.ConsultPage e w2 = (Normal Pages.Null, push "/login" w2).
Proof.
  apply (guard_follows_session
           (stub ∅ 200 (VObj [("access_token", VStr "tok123")]))
           (AuthContext.start ∅) "a@b.com" "secret" "tok123").
  - eexists _, _. repeat split; reflexivity.
  - discriminate.
Defined.

(** *** The header *)

(** With a session the header shows the user block, the same fixed name
    and address whatever the credential; its [Log out] button ends the
    session, after which the header shows [Sign In] (to ["/login"]) and
    [Sign Up] (to ["/auth"]). *)
Theorem header_logout (e : Env) (w : World) :
  AuthContext.isAuthenticated (AuthContext.AuthProvider w) = true ->
  exists avatar onLogout,
    Views.Header [w]
    = Normal (Views.SignedIn "Faisal Khan" "f.khann@gmail.com" avatar onLogout) /\
    let w' := snd (onLogout e w) in
    Views.Header [w']
    = Normal (Views.SignedOut (router_push "/login") (router_push "/auth")) /\
    localStorage w' !! "token" = None /\
    pushed w' = "/login" :: pushed w.
Proof.
  intros Hauth. unfold Views.Header, AuthContext.useAuth, AuthContext.useContext.
  rewrite Hauth. eexists _, _. split; [reflexivity|].
  cbn [AuthContext.ctx_logout AuthContext.AuthProvider]. run. cbn.
  repeat split. apply lookup_delete_eq.
Qed.

Lemma header_logout_witness :
  exists avatar onLogout,
    Views.Header [snd (Session_set "tok123" (offline ∅) (AuthContext.start ∅))]
    = Normal (Views.SignedIn "Faisal Khan" "f.khann@gmail.com" avatar onLogout) /\
    let w' := snd (onLogout (offline ∅)
                     (snd (Session_set "tok123" (offline ∅) (AuthContext.start ∅)))) in
    Views.Header [w']
    = Normal (Views.SignedOut (router_push "/login") (router_push "/auth")) /\
    localStorage w' !! "token" = None /\
    pushed w' = "/login" :: pushed (snd (Session_set "tok123" (offline ∅)
                                           (AuthContext.start ∅))).
Proof.
  apply (header_logout (offline ∅)
           (snd (Session_set "tok123" (offline ∅) (AuthContext.start ∅)))).
  reflexivity.
Defined.

(** *** The admin page *)

(** The request of the effect of [AdminPage] (lines 22-24). *)
Definition admin_request (tok : value) : Request :=
  {| url := "http://127.0.0.1:8000/admin/users/pending";
     method := "GET";
     headers := {[ "Authorization" := "Bearer " +:+ to_string tok ]};
     body := None |}.

(** Without a credential the effect of [AdminPage] makes no request.
    With one it sends it as a bearer and hands whatever JSON comes back to
    [setPending], without looking at the status: the body of a refusal
    takes the place of the list. *)
Theorem admin_effect_unchecked (e : Env) (w : World) (tok : value) :
  (truthy tok = false -> Pages.AdminPage_effect tok e w = (Normal VUndefined, w)) /\
  (truthy tok = true ->
   forall r v,
     network e (admin_request tok) = Some r ->
     json r = Some v ->
     Pages.AdminPage_effect tok e w = (Normal v, log_request (admin_request tok) w)).
Proof.
  unfold Pages.AdminPage_effect. split; intros ->; cbn [negb]; [reflexivity|].
  intros r v Hnet Hjson. run. fold (admin_request tok).
  rewrite Hnet. run. rewrite Hjson. reflexivity.
Qed.

Lemma admin_effect_unchecked_witness :
  Pages.AdminPage_effect (VStr "tok123")
    (stub ∅ 403 (VObj [("detail", VStr "Not an admin")])) (AuthContext.start ∅)
  = (Normal (VObj [("detail", VStr "Not an admin")]),
     log_request (admin_request (VStr "tok123")) (AuthContext.start ∅)).
Proof.
  destruct (admin_effect_unchecked
              (stub ∅ 403 (VObj [("detail", VStr "Not an admin")]))
              (AuthContext.start ∅) (VStr "tok123")) as [_ H].
  exact (H eq_refl _ _ eq_refl eq_refl).
Defined.

(** The request of [approve]. *)
Definition approve_request (e : Env) (tok : value) (uid : number) : Request :=
  post_request e ("/admin/approve/" +:+ number_to_string uid) []
               {| Api.form := false; Api.opt_token := tok |}.

(** [approve] posts the empty JSON object.  With the first revision of
    [post] the list loses exactly the users with the approved [id], all
    others staying in order, once the answer is a success with a JSON
    body; a refusal throws and the list is not set.  With the second
    revision the user is dropped from the list on any JSON answer, refusal
    included. *)
Theorem approve_outcomes (e : Env) (w : World) (tok : value)
        (pending : list Views.User) (uid : number) (r : Response) :
  network e (approve_request e tok uid) = Some r ->
  body (approve_request e tok uid) = Some "{}" /\
  (ok r = false ->
   fst (Views.approve Api.post tok pending uid e w) = Throw (Error (text r))) /\
  (forall v,
      json r = Some v ->
      (ok r = true ->
       fst (Views.approve Api.post tok pending uid e w)
       = Normal (List.filter (fun u => negb (number_eqb (Views.id u) uid)) pending)) /\
      fst (Views.approve Api2.post tok pending uid e w)
      = Normal (List.filter (fun u => negb (number_eqb (Views.id u) uid)) pending)) /\
  (forall u,
      In u (List.filter (fun u => negb (number_eqb (Views.id u) uid)) pending)
      <-> In u pending /\ Views.id u <> uid).
Proof.
  intros Hnet. unfold approve_request in Hnet.
  unfold Views.approve, bind. rewrite post_world, post2_world, Hnet.
  split; [reflexivity|]. split; [|split].
  - intros ->. reflexivity.
  - intros v ->. split; [intros ->|]; reflexivity.
  - intros u. rewrite filter_In, negb_true_iff. unfold number_eqb.
    rewrite String.eqb_neq. destruct (Views.id u) as [a], uid as [b]; cbn.
    split; intros [Hin Hne]; (split; [exact Hin|congruence]).
Qed.

Lemma approve_outcomes_witness :
  let pending := [Views.mkUser (mkNumber "7") "x@y.com" false false;
                  Views.mkUser (mkNumber "8") "z@y.com" false false] in
  fst (Views.approve Api.post (VStr "tok123") pending (mkNumber "7")
         (stub ∅ 403 (VObj [("detail", VStr "Not an admin")])) (AuthContext.start ∅))
  = Throw (Error (default "" (JSON_stringify (VObj [("detail", VStr "Not an admin")])))) /\
  fst (Views.approve Api2.post (VStr "tok123") pending (mkNumber "7")
         (stub ∅ 403 (VObj [("detail", VStr "Not an admin")])) (AuthContext.start ∅))
  = Normal [Views.mkUser (mkNumber "8") "z@y.com" false false].
Proof.
  destruct (approve_outcomes
              (stub ∅ 403 (VObj [("detail", VStr "Not an admin")]))
              (AuthContext.start ∅) (VStr "tok123")
              [Views.mkUser (mkNumber "7") "x@y.com" false false;
               Views.mkUser (mkNumber "8") "z@y.com" false false]
              (mkNumber "7") _ eq_refl)
    as (_ & Hthrow & Hset & _).
  split.
  - exact (Hthrow eq_refl).
  - exact (proj2 (Hset _ eq_refl)).
Defined.

(** *** Signing up *)

Definition signup_request (e : Env) (email password : string) : Request :=
  post_request e "/auth/register"
               [("username", VStr email); ("password", VStr password)]
               {| Api.form := true; Api.opt_token := VUndefined |}.

Ltac run_ui :=
  cbv beta iota delta
    [Views.handleSubmit Views.try_catch Views.ui_bind Views.ui_ret
     Views.in_world Views.alert Views.console_error lift fst snd];
  cbn [Views.world Views.alerts Views.console].

(** Submitting the sign-up form never lets an error escape and always
    ends in exactly one [alert]; it makes one form-encoded request to
    [/auth/register] and leaves the session alone: even when the answer
    carries an [access_token], nothing is stored and nothing is pushed.
    This holds with either revision of [post]. *)
Theorem signup_keeps_session (e : Env) (s : Views.Screen) (email password : string) :
  Forall (fun post =>
            let s' := snd (Views.handleSubmit post email password e s) in
            fst (Views.handleSubmit post email password e s) = Normal tt /\
            Views.world s' = log_request (signup_request e email password) (Views.world s) /\
            length (Views.alerts s') = S (length (Views.alerts s)))
         [Api.post; Api2.post] /\
  body (signup_request e email password)
  = Some (String.concat "&" ["username=" +:+ form_encode email;
                             "password=" +:+ form_encode password]).
Proof.
  split; [|reflexivity].
  repeat constructor; run_ui; rewrite ?post_world, ?post2_world;
    fold (signup_request e email password);
    destruct (network e (signup_request e email password)) as [r|];
    try destruct (ok r); try destruct (json r) as [data|];
    try destruct (get_prop data "access_token") as [a|];
    try destruct (get_prop data "detail") as [d|];
    try destruct (truthy a); reflexivity.
Qed.

(** What the user is told.  With the second revision of [post] the
    message depends on the body alone: the welcome when [access_token] is
    truthy, else [detail], else ["Signup failed"].  With the first, that
    holds on a success status only; on any other status the [detail] sent
    by the remote end is not shown, the alert is the generic one and the
    error goes to the console. *)
Theorem signup_messages (e : Env) (s : Views.Screen) (email password : string)
        (r : Response) (data a d : value) :
  network e (signup_request e email password) = Some r ->
  json r = Some data ->
  get_prop data "access_token" = Normal a ->
  get_prop data "detail" = Normal d ->
  let told := if truthy a then "Account created! You can now log in."
              else to_string (or_else d (VStr "Signup failed")) in
  let s1 := snd (Views.handleSubmit Api.post email password e s) in
  let s2 := snd (Views.handleSubmit Api2.post email password e s) in
  Views.alerts s2 = told :: Views.alerts s /\
  Views.console s2 = Views.console s /\
  (ok r = true ->
   Views.alerts s1 = told :: Views.alerts s /\ Views.console s1 = Views.console s) /\
  (ok r = false ->
   Views.alerts s1 = "An error occurred during signup" :: Views.alerts s /\
   Views.console s1 = Error (text r) :: Views.console s).
Proof.
  intros Hnet Hjson Ha Hd. cbv zeta.
  run_ui. rewrite post_world, post2_world.
  fold (signup_request e email password). rewrite Hnet, Hjson.
  cbn iota. rewrite Ha, Hd. cbn iota.
  split; [|split; [|split]].
  - destruct (truthy a); reflexivity.
  - destruct (truthy a); reflexivity.
  - intros ->. cbn iota. rewrite Ha, Hd. destruct (truthy a); split; reflexivity.
  - intros ->. split; reflexivity.
Qed.

Lemma signup_messages_witness :
  let e := stub ∅ 400 (VObj [("detail", VStr "Email already registered")]) in
  let s := {| Views.world := AuthContext.start ∅; Views.alerts := []; Views.console := [] |} in
  Views.alerts (snd (Views.handleSubmit Api2.post "a@b.com" "secret" e s))
  = ["Email already registered"] /\
  Views.alerts (snd (Views.handleSubmit Api.post "a@b.com" "secret" e s))
  = ["An error occurred during signup"].
Proof.
  destruct (signup_messages
              (stub ∅ 400 (VObj [("detail", VStr "Email already registered")]))
              {| Views.world := AuthContext.start ∅; Views.alerts := [];
                 Views.console := [] |}
              "a@b.com" "secret" _ _ VUndefined (VStr "Email already registered")
              eq_refl eq_refl eq_refl eq_refl)
    as (H2 & _ & _ & H1).
  split; [exact H2|]. exact (proj1 (H1 eq_refl)).
Defined.
